(** * Named colours, named pens, target items and path buttons of pyqtgraph

    A shallow embedding of

      - [pyqtgraph/namedColorManager.py]  (module [NamedColorManager]),
      - [pyqtgraph/namedPen.py]           (module [NamedPen]),
      - [pyqtgraph/graphicsItems/TargetItem.py] (module [TargetItem]),
      - [pyqtgraph/widgets/PathButton.py] (module [PathButton]),

    Python objects that are mutated in place and reached through several
    references (the palette dictionary [functions.Colors], the [QColor]
    objects stored in it) live in an explicit store; a method is a function
    from the store to an outcome that is either a returned value or a raised
    exception, each with the store as it is at that moment. *)

From Stdlib Require Import ZArith List String Ascii Bool Lia.
From Stdlib Require Import Floats.PrimFloat Floats.SpecFloat Floats.FloatOps.
From stdpp Require Import base gmap strings list fin_maps.

Open Scope string_scope.
Open Scope Z_scope.

(** ** Exceptions and the outcome of a call *)

Inductive exn : Type :=
| KeyError (key : string)
| ValueError (msg : string)
| TypeError (msg : string)
| NameError (name : string)
| IndexError (msg : string)
| OverflowError                         (* the message is the binding's *)
| PyException (msg : string).

Inductive outcome (S A : Type) : Type :=
| Returned (a : A) (s : S)
| Raised (e : exn) (s : S).

Arguments Returned {S A} a s.
Arguments Raised {S A} e s.

(** A method body: it reads and writes the store and returns or raises. *)
Definition Py (S A : Type) : Type := S -> outcome S A.

Definition ret {S A} (a : A) : Py S A := fun s => Returned a s.

Definition bind {S A B} (m : Py S A) (k : A -> Py S B) : Py S B :=
  fun s => match m s with
           | Returned a s' => k a s'
           | Raised e s' => Raised e s'
           end.

Definition raise {S A} (e : exn) : Py S A := fun s => Raised e s.
Definition get {S} : Py S S := fun s => Returned s s.
Definition gets {S A} (f : S -> A) : Py S A := fun s => Returned (f s) s.
Definition modify {S} (f : S -> S) : Py S unit := fun s => Returned tt (f s).

(** The sequencing notations [x ← m; k] and [m;; k] are those of stdpp. *)
#[global] Instance Py_ret {S} : MRet (Py S) := fun A a => ret a.
#[global] Instance Py_bind {S} : MBind (Py S) := fun A B k m => bind m k.

(** [try: m except ValueError as exc: raise e from exc]: only a
    [ValueError] raised by [m] is caught; any other exception goes through. *)
Definition try_except_ValueError {S A} (m : Py S A) (handler : Py S A) : Py S A :=
  fun s => match m s with
           | Raised (ValueError _) s' => handler s'
           | r => r
           end.

(** [for x in xs: body x], stopping at the first exception. *)
Fixpoint for_each {S A} (xs : list A) (body : A -> Py S unit) : Py S unit :=
  match xs with
  | [] => ret tt
  | x :: rest => bind (body x) (fun _ => for_each rest body)
  end.

(** ** Toolkit colours

    [QtGui.QColor(r, g, b, a)] is a toolkit class; only its four channels
    and [setAlpha] are used by the sources.  [setAlpha] overwrites the alpha
    channel of the object it is called on; the toolkit brings a value
    outside 0..255 to the nearer end of that range.  The binding passes a
    Python integer as a C [int] and raises [OverflowError] for one that
    does not fit. *)

Definition c_int (n : Z) : bool := (-2147483648 <=? n) && (n <=? 2147483647).

(** An alpha channel as [QColor] keeps it. *)
Definition clamp_alpha (a : Z) : Z := Z.max 0 (Z.min a 255).

Module QtGui.
Record QColor : Type := mkQColor { red : Z; green : Z; blue : Z; alpha : Z }.
End QtGui.

Abbreviation QColor := QtGui.QColor.
Abbreviation mkQColor := QtGui.mkQColor.

Definition QColor_setAlpha (a : Z) (c : QColor) : QColor :=
  mkQColor (QtGui.red c) (QtGui.green c) (QtGui.blue c) (clamp_alpha a).

#[global] Instance QColor_eq_dec : EqDecision QColor.
Proof. solve_decision. Defined.

(** A reference to a [QColor] object.  Two names of a dictionary that hold
    the same reference hold the same object. *)
Definition ref : Type := nat.

(** A Python [dict] from colour names to [QColor] objects, as far as lookup,
    membership, [clear] and [update] go. *)
Abbreviation pydict := (gmap string ref).

(** A module-level [dict] that is iterated over keeps its insertion order. *)
Definition odict : Type := list (string * ref).

Fixpoint odict_get (d : odict) (k : string) : option ref :=
  match d with
  | [] => None
  | (k', v) :: rest => if String.eqb k' k then Some v else odict_get rest k
  end.

(** [d[k] = v]: an existing key keeps its place, a new key goes last. *)
Fixpoint odict_set (d : odict) (k : string) (v : ref) : odict :=
  match d with
  | [] => [(k, v)]
  | (k', v') :: rest =>
      if String.eqb k' k then (k', v) :: rest else (k', v') :: odict_set rest k v
  end.

Definition odict_keys (d : odict) : list string := map fst d.

(** ** The store

    The objects the two colour modules share.  [functions.py] instantiates
    the one [NamedColorManager] on its dictionary [functions.Colors]
    ([self.color_dic = color_dic  # this is the imported functions.Colors!]),
    so [Colors] below is at once [functions.Colors] and the manager's
    [self.color_dic]. *)

(** Identity ([id]) of a Python object registered with the manager. *)
Definition obj_id : Type := nat.

(** A [NamedPen]: the identifier pair it keeps, and the state of its [QPen]
    base class.  [QPen.setColor] stores the colour by value. *)
Record NamedPen : Type := mkNamedPen {
  _identifier : string * option Z;
  qpen_width : Z;
  qpen_cosmetic : bool;
  qpen_color : QColor
}.

(** A dictionary argument of a method: [None], the very object
    [functions.Colors], or some other dictionary with the given contents. *)
Inductive dict_arg : Type :=
| ArgNone
| ArgColors
| ArgDict (d : pydict).

(** What can be observed of a run besides the store. *)
Inductive event : Type :=
| Print (msg : string)
| Call_paletteChange (obj : obj_id) (color_dict : pydict)
| Call_paletteChange_None (obj : obj_id)
| Emit_paletteHasChangedSignal.

#[global] Instance event_eq_dec : EqDecision event.
Proof. solve_decision. Defined.

Record world : Type := mkWorld {
  heap : ref -> QColor;                (* the QColor objects *)
  Colors : pydict;                     (* functions.Colors *)
  registered_objects : gset obj_id;    (* weakref.WeakSet, by identity *)
  pens : gmap obj_id NamedPen;         (* the live NamedPen objects *)
  next_id : obj_id;                    (* identity of the next new object *)
  trace : list event
}.

Definition set_heap (f : (ref -> QColor) -> ref -> QColor) (w : world) : world :=
  mkWorld (f (heap w)) (Colors w) (registered_objects w) (pens w) (next_id w) (trace w).
Definition set_Colors (f : pydict -> pydict) (w : world) : world :=
  mkWorld (heap w) (f (Colors w)) (registered_objects w) (pens w) (next_id w) (trace w).
Definition set_registered (f : gset obj_id -> gset obj_id) (w : world) : world :=
  mkWorld (heap w) (Colors w) (f (registered_objects w)) (pens w) (next_id w) (trace w).
Definition set_pens (f : gmap obj_id NamedPen -> gmap obj_id NamedPen) (w : world) : world :=
  mkWorld (heap w) (Colors w) (registered_objects w) (f (pens w)) (next_id w) (trace w).
Definition set_next_id (n : obj_id) (w : world) : world :=
  mkWorld (heap w) (Colors w) (registered_objects w) (pens w) n (trace w).
Definition log (e : event) (w : world) : world :=
  mkWorld (heap w) (Colors w) (registered_objects w) (pens w) (next_id w) (trace w ++ [e]).

(** The contents a dictionary argument has in the current store. *)
Definition contents (w : world) (a : dict_arg) : option pydict :=
  match a with
  | ArgNone => None
  | ArgColors => Some (Colors w)
  | ArgDict d => Some d
  end.

(** [d[name]] on a [dict]: a missing key raises [KeyError]. *)
Definition getitem (d : pydict) (name : string) : Py world ref :=
  match d !! name with
  | Some r => ret r
  | None => raise (KeyError name)
  end.

(** [color_dict[name]] on a dictionary argument, read when it runs. *)
Definition subscript (color_dict : dict_arg) (name : string) : Py world ref :=
  fun w => match contents w color_dict with
           | Some d => getitem d name w
           | None => Raised (TypeError "'NoneType' object is not subscriptable") w
           end.

(** [qcol.setAlpha(alpha)] on the object behind reference [r]. *)
Definition qcol_setAlpha (r : ref) (a : Z) : Py world unit :=
  if c_int a
  then modify (set_heap (fun h r' => if Nat.eqb r' r then QColor_setAlpha a (h r') else h r'))
  else raise OverflowError.

(** [print(msg)] *)
Definition print (msg : string) : Py world unit := modify (log (Print msg)).

(** [weakref.WeakSet]: a set of objects by identity ([NamedPen.__hash__] is
    [id(self)]); a collected object leaves the set; iterating yields every
    member once, in no particular order. *)
Definition WeakSet_add (o : obj_id) (s : gset obj_id) : gset obj_id := {[o]} ∪ s.
Definition WeakSet_discard (o : obj_id) (s : gset obj_id) : gset obj_id := s ∖ {[o]}.
Definition WeakSet_iter (s : gset obj_id) : list obj_id := elements s.

(** The garbage collector reclaims pen [o]. *)
Definition collect (o : obj_id) (w : world) : world :=
  set_registered (WeakSet_discard o) (set_pens (delete o) w).

(** ** namedColorManager.py *)

Module NamedColorManager.

(** The thirteen [QColor] objects created by the dictionary display of
    [DEFAULT_COLORS], in source order; object [i] is at reference [i]. *)
Definition default_objects : list (string * QColor) :=
  [ ("b", mkQColor 0 0 255 255);
    ("g", mkQColor 0 255 0 255);
    ("r", mkQColor 255 0 0 255);
    ("c", mkQColor 0 255 255 255);
    ("m", mkQColor 255 0 255 255);
    ("y", mkQColor 255 255 0 255);
    ("k", mkQColor 0 0 0 255);
    ("w", mkQColor 255 255 255 255);
    ("d", mkQColor 150 150 150 255);
    ("l", mkQColor 200 200 200 255);
    ("s", mkQColor 100 100 150 255);
    ("gr_acc", mkQColor 200 200 100 255);
    ("gr_reg", mkQColor 0 0 255 50) ].

Definition enumerate {A} (l : list A) : list (nat * A) :=
  combine (seq 0 (length l)) l.

Definition display_dict : odict :=
  map (fun ix => (fst (snd ix), fst ix)) (enumerate default_objects).

(** [DEFAULT_COLORS[key] = DEFAULT_COLORS[col]]: the new key refers to the
    very object of [col]. *)
Definition alias (d : odict) (key col : string) : odict :=
  match odict_get d col with
  | Some r => odict_set d key r
  | None => d
  end.

Definition functional_colors : list (string * string) :=
  [ ("gr_fg", "d"); ("gr_bg", "k"); ("gr_txt", "d"); ("gr_hov", "r") ].

Definition plot_colors : list string :=
  [ "l"; "y"; "r"; "m"; "b"; "c"; "g"; "d"; "d"; "d"; "d"; "d" ].

(** ['{:X}'.format(idx)] for [idx < 16]. *)
Definition hex_digit (n : nat) : string :=
  match n with
  | 0 => "0" | 1 => "1" | 2 => "2" | 3 => "3" | 4 => "4" | 5 => "5"
  | 6 => "6" | 7 => "7" | 8 => "8" | 9 => "9" | 10 => "A" | 11 => "B"
  | 12 => "C" | 13 => "D" | 14 => "E" | _ => "F"
  end%nat.

Definition DEFAULT_COLORS : odict :=
  let d1 := fold_left (fun d kc => alias d (fst kc) (snd kc))
                      functional_colors display_dict in
  fold_left (fun d ic => alias d ("p" ++ hex_digit (fst ic)) (snd ic))
            (enumerate plot_colors) d1.

Definition DEBUG : bool := true.

(** [dict.update(DEFAULT_COLORS)]: the entries are stored one after another. *)
Definition update_odict (other : odict) (d : pydict) : pydict :=
  fold_left (fun m kv => <[fst kv := snd kv]> m) other d.

(** The store once [functions.py] has been imported: the default objects
    are at references 0..12, every other reference holds an object [others]
    of the application, [__init__] has run on [functions.Colors]. *)
Definition module_heap (others : ref -> QColor) : ref -> QColor :=
  fun r => match nth_error (map snd default_objects) r with
           | Some c => c
           | None => others r
           end.

(** [NamedColorManager.__init__(self, color_dic)] *)
Definition __init__ : Py world unit :=
  modify (set_Colors (fun _ => ∅));;                     (* self.color_dic.clear() *)
  modify (set_Colors (update_odict DEFAULT_COLORS));;    (* self.color_dic.update(DEFAULT_COLORS) *)
  modify (set_registered (fun _ => ∅)).                  (* weakref.WeakSet() *)

(** [colors(self)]: the dictionary itself, not a copy. *)
Definition colors : Py world dict_arg := ret ArgColors.

(** [register(self, obj)] *)
Definition register (obj : obj_id) : Py world unit :=
  modify (set_registered (WeakSet_add obj)).

(** [for key in DEFAULT_COLORS: if key not in color_dic: raise ValueError(..)] *)
Fixpoint check_keys (keys : list string) (color_dic : pydict) : Py world unit :=
  match keys with
  | [] => ret tt
  | key :: rest =>
      if bool_decide (is_Some (color_dic !! key))
      then check_keys rest color_dic
      else raise (ValueError ("Palette definition is missing '" ++ key ++ "'"))
  end.

(** [self.color_dic.update(color_dic)]; [update(None)] raises [TypeError].
    The argument is read when [update] runs. *)
Definition update (color_dic : dict_arg) : Py world unit :=
  fun w => match contents w color_dic with
           | None => Raised (TypeError "'NoneType' object is not iterable") w
           | Some d => Returned tt (set_Colors (fun own => d ∪ own) w)
           end.

Section Dispatch.

(** [obj.paletteChange(color_dict)] is dispatched on the registered object. *)
Variable paletteChange : obj_id -> dict_arg -> Py world unit.

(** [redefinePalette(self, color_dic)] *)
Definition redefinePalette (color_dic : dict_arg) : Py world unit :=
  (w ← get;
   match contents w color_dic with
   | Some d => check_keys (odict_keys DEFAULT_COLORS) d
   | None => ret tt                                        (* color_dic is None *)
   end);;
  (if DEBUG
   then print "  NCM: confirmed all color definitions are present, setting palette"
   else ret tt);;
  modify (set_Colors (fun _ => ∅));;                       (* self.color_dic.clear() *)
  update color_dic;;
  (w ← get;
   for_each (WeakSet_iter (registered_objects w))
     (fun obj => paletteChange obj ArgColors));;            (* self.color_dic *)
  modify (log Emit_paletteHasChangedSignal).

End Dispatch.

Definition initial_world (others : ref -> QColor) : world :=
  match __init__ (mkWorld (module_heap others) ∅ ∅ ∅ 0%nat []) with
  | Returned _ w => w
  | Raised _ w => w
  end.

End NamedColorManager.

(** ** namedPen.py *)

Module NamedPen.

(** [DEBUG = False] in this module: none of its [print] statements runs. *)
Definition DEBUG : bool := false.

(** The first argument of [setColor]: [None], a [QColor], or a name. *)
Inductive name_arg : Type :=
| NameNone
| NameQColor (c : QColor)
| NameStr (name : string).

(** A method runs on a live object. *)
Definition the_pen (self : obj_id) : Py world NamedPen :=
  fun w => match pens w !! self with
           | Some p => Returned p w
           | None => Raised (PyException "weakly-referenced object no longer exists") w
           end.

Definition set_identifier (self : obj_id) (i : string * option Z) : Py world unit :=
  modify (set_pens (alter (fun p =>
    mkNamedPen i (qpen_width p) (qpen_cosmetic p) (qpen_color p)) self)).

(** [super().setColor(qcol)]: the pen keeps the value the object has now. *)
Definition QPen_setColor (self : obj_id) (qcol : ref) : Py world unit :=
  modify (fun w => set_pens (alter (fun p =>
    mkNamedPen (_identifier p) (qpen_width p) (qpen_cosmetic p) (heap w qcol)) self) w).

(** [_updateQColor(self, identifier, color_dict=None)] *)
Definition _updateQColor (self : obj_id) (identifier : string * option Z)
    (color_dict : dict_arg) : Py world unit :=
  let '(name, alpha) := identifier in
  color_dict ← match color_dict with
               | ArgNone => NamedColorManager.colors
               | _ => ret color_dict
               end;
  qcol ← try_except_ValueError
           (subscript ArgColors name)                       (* fn.Colors[name] *)
           (raise (ValueError ("Color '" ++ name ++ "' is not in list of defined colors")));
  match alpha with
  | Some a => qcol_setAlpha qcol a
  | None => ret tt
  end;;
  QPen_setColor self qcol.

(** [QPen.setWidth(width)] on a pen of width [current]: the binding takes a
    C [int]; the toolkit ignores, with a warning, a width that is negative
    or above 32767. *)
Definition QPen_setWidth (width current : Z) : Py world Z :=
  if c_int width
  then ret (if (0 <=? width) && (width <=? 32767) then width else current)
  else raise OverflowError.

(** [NamedPen(name, width=1, alpha=None)]: the new object's identity is
    returned.  A fresh [QPen(Qt.SolidLine)] is black and of width 1.  The
    object joins the live pens once its [_identifier] is set. *)
Definition __init__ (name : string) (width : Z) (alpha : option Z) : Py world obj_id :=
  w ← get;
  let self := next_id w in
  modify (set_next_id (S self));;
  width ← QPen_setWidth width 1;                          (* super().setWidth(width) *)
  modify (set_pens <[self := mkNamedPen (name, alpha) width true (mkQColor 0 0 0 255)]>);;
  _updateQColor self (name, alpha) ArgNone;;
  NamedColorManager.register self;;
  ret self.

(** [__eq__], [__ne__], [__hash__] *)
Definition __eq__ (self other : NamedPen) : bool :=
  bool_decide (_identifier self = _identifier other).
Definition __ne__ (self other : NamedPen) : bool := negb (__eq__ self other).
Definition __hash__ (self : obj_id) : obj_id := self.

(** [setColor(self, name=None, alpha=None)] *)
Definition setColor (self : obj_id) (name : name_arg) (alpha : option Z) : Py world unit :=
  p ← the_pen self;
  let '(name, alpha) :=
    match name with
    | NameNone => (fst (_identifier p), alpha)
    | NameQColor c =>
        (fst (_identifier p),
         match alpha with
         | None => Some (QtGui.alpha c)             (* name.alpha() *)
         | Some a => Some a
         end)
    | NameStr n => (n, alpha)
    end in
  set_identifier self (name, alpha);;
  _updateQColor self (name, alpha) ArgNone.

(** [setAlpha(self, alpha)] *)
Definition setAlpha (self : obj_id) (alpha : option Z) : Py world unit :=
  p ← the_pen self;
  set_identifier self (fst (_identifier p), alpha);;
  _updateQColor self (fst (_identifier p), alpha) ArgNone.

(** [paletteChange(self, color_dict)] *)
Definition paletteChange (self : obj_id) (color_dict : dict_arg) : Py world unit :=
  p ← the_pen self;
  let '(name, alpha) := _identifier p in
  color_dict ← match color_dict with
               | ArgNone => NamedColorManager.colors
               | _ => ret color_dict
               end;
  qcol ← try_except_ValueError
           (subscript color_dict name)
           (raise (ValueError ("Color " ++ name ++ " is not in list of defined colors")));
  match alpha with
  | Some a => qcol_setAlpha qcol a
  | None => ret tt
  end;;
  QPen_setColor self qcol.

(** [pen.color()]: the colour the [QPen] base class holds. *)
Definition color (self : obj_id) : Py world QColor :=
  p ← the_pen self; ret (qpen_color p).

End NamedPen.

(** A callback under observation: the trace records the object it is
    called on and the contents of the dictionary it receives, at the moment
    of the call; then the callback runs. *)
Definition observed (paletteChange : obj_id -> dict_arg -> Py world unit)
    (obj : obj_id) (color_dict : dict_arg) : Py world unit :=
  (w ← get;
   match contents w color_dict with
   | Some d => modify (log (Call_paletteChange obj d))
   | None => modify (log (Call_paletteChange_None obj))
   end);;
  paletteChange obj color_dict.

(** The manager's [redefinePalette] with the registered objects being
    [NamedPen]s, the one class of the sources with a [paletteChange]. *)
Definition redefinePalette : dict_arg -> Py world unit :=
  NamedColorManager.redefinePalette (observed NamedPen.paletteChange).

(** ** Python values reaching the graphics items *)

(** The values a caller can pass for a position or an offset.  An instance
    of a subclass is the constructor of its base class ([Point] is a
    [QPointF], a named tuple is a [tuple]); [VObject cls] is an instance of
    any class that derives from none of tuple, list, QPointF, QPoint. *)
#[warnings="-register-all"]
Inductive pyval : Type :=
| VNone
| VBool (b : bool)
| VInt (n : Z)
| VFloat (x : float)
| VStr (s : string)
| VTuple (items : list pyval)
| VList (items : list pyval)
| VQPointF (x y : float)
| VQPoint (x y : Z)
| VObject (cls : string).

Inductive pyclass : Type := class_tuple | class_list | class_QPointF | class_QPoint.

Definition instance_of (v : pyval) (c : pyclass) : bool :=
  match v, c with
  | VTuple _, class_tuple => true
  | VList _, class_list => true
  | VQPointF _ _, class_QPointF => true
  | VQPoint _ _, class_QPoint => true
  | _, _ => false
  end.

(** [isinstance(v, (c1, c2, ...))] *)
Definition isinstance (v : pyval) (classes : list pyclass) : bool :=
  existsb (instance_of v) classes.

(** ** graphicsItems/TargetItem.py *)

Module TargetItem.

Inductive signal : Type :=
| sigPositionChanged
| sigPositionChangeFinished.

Section Toolkit.

(** Supplied by the toolkit and by modules of the library that are not part
    of the sources: painter paths and transforms with their operations,
    [math.atan2], [functions.invertQTransform], the [Point] class, and
    [==] on Python values. *)
Variable QPainterPath : Type.
Variable QTransform : Type.
Variable QTransform_new : QTransform.
Variable translate : QTransform -> float -> float -> QTransform.
Variable rotate : QTransform -> float -> QTransform.
Variable map_point : QTransform -> float * float -> float * float.
Variable map_path : QTransform -> QPainterPath -> QPainterPath.
Variable atan2 : float -> float -> float.
Variable pi : float.
Variable invertQTransform : QTransform -> exn + QTransform.
Variable Point : pyval -> exn + float * float.
Variable py_eq : pyval -> pyval -> bool.

(** The fields of a [TargetItem] that [setPos], [setPath], [shape],
    [generateShape], [viewTransformChanged] and [position] read or write,
    the position its [QGraphicsItem] base holds, the device transform the
    scene reports for it, and the signals it has emitted. *)
Record item : Type := mkItem {
  _pos : pyval;
  _path : QPainterPath;
  _shape : option QPainterPath;
  base_pos : float * float;
  deviceTransform : option QTransform;
  emitted : list signal;
  updates : nat                         (* calls of self.update() *)
}.

Definition set_pos (p : pyval) (it : item) : item :=
  mkItem p (_path it) (_shape it) (base_pos it) (deviceTransform it) (emitted it) (updates it).
Definition set_path (p : QPainterPath) (it : item) : item :=
  mkItem (_pos it) p (_shape it) (base_pos it) (deviceTransform it) (emitted it) (updates it).
Definition set_shape (s : option QPainterPath) (it : item) : item :=
  mkItem (_pos it) (_path it) s (base_pos it) (deviceTransform it) (emitted it) (updates it).
Definition set_base_pos (p : float * float) (it : item) : item :=
  mkItem (_pos it) (_path it) (_shape it) p (deviceTransform it) (emitted it) (updates it).
Definition emit (s : signal) (it : item) : item :=
  mkItem (_pos it) (_path it) (_shape it) (base_pos it) (deviceTransform it)
         (emitted it ++ [s]) (updates it).
Definition update (it : item) : item :=
  mkItem (_pos it) (_path it) (_shape it) (base_pos it) (deviceTransform it)
         (emitted it) (S (updates it)).

Definition lift {S A} (r : exn + A) : Py S A :=
  match r with
  | inl e => raise e
  | inr a => ret a
  end.

(** [setPos(self, pos)] *)
Definition setPos (pos : pyval) : Py item unit :=
  newPos ← (if isinstance pos [class_tuple] then ret pos
            else if isinstance pos [class_list] then
              match pos with
              | VList items => ret (VTuple items)          (* tuple(pos) *)
              | _ => ret pos
              end
            else if isinstance pos [class_QPointF; class_QPoint] then
              match pos with
              | VQPointF x y => ret (VTuple [VFloat x; VFloat y])
              | VQPoint x y => ret (VTuple [VInt x; VInt y])
              | _ => ret pos
              end
            else raise (TypeError ""));
  it ← get;
  if negb (py_eq (_pos it) newPos) then
    modify (set_pos newPos);;
    p ← lift (Point newPos);
    modify (set_base_pos p);;                               (* super().setPos(..) *)
    modify (emit sigPositionChanged)
  else ret tt.

(** [setPath(self, path)]; [path_eq] is [==] on painter paths. *)
Variable path_eq : QPainterPath -> QPainterPath -> bool.

Definition setPath (path : QPainterPath) : Py item unit :=
  it ← get;
  if negb (path_eq path (_path it)) then
    modify (set_path path);;
    modify (set_shape None)
  else ret tt.

(** [generateShape(self)]: [None] stands for Python's [None]. *)
Definition generateShape : Py item (option QPainterPath) :=
  it ← get;
  match deviceTransform it with
  | None =>
      modify (set_shape (Some (_path it)));;
      ret None
  | Some dt =>
      let p1 := map_point dt (1, 0)%float in
      let p0 := map_point dt (0, 0)%float in
      let v := (fst p1 - fst p0, snd p1 - snd p0)%float in
      let va := atan2 (snd v) (fst v) in
      dti ← lift (invertQTransform dt);
      let devPos := map_point dt (0, 0)%float in
      let tr := QTransform_new in
      let tr := translate tr (fst devPos) (snd devPos) in
      let tr := rotate tr (va * 180 / pi)%float in
      ret (Some (map_path dti (map_path tr (_path it))))
  end.

(** [shape(self)]; [prepareGeometryChange] is left to the toolkit. *)
Definition shape : Py item QPainterPath :=
  it ← get;
  match _shape it with
  | None =>
      s ← generateShape;
      match s with
      | None => it ← get; ret (_path it)
      | Some s => modify (set_shape (Some s));; ret s
      end
  | Some s => ret s
  end.

(** [viewTransformChanged(self)] *)
Definition viewTransformChanged : Py item unit :=
  modify (set_shape None);;
  modify update.

(** [position(self)] *)
Definition position : Py item pyval := gets _pos.

End Toolkit.

End TargetItem.

(** [TargetLabel], the second class of TargetItem.py *)

Module TargetLabel.

(** What [__init__] sets on the label before and after it looks at
    [offset]. *)
Record label : Type := mkLabel {
  parentItem : option nat;
  target : option nat;
  format : pyval;
  pos : option pyval;                   (* the arguments given to setPos *)
  connected : bool;                     (* sigPositionChanged connected *)
  value_changes : nat                   (* calls of valueChanged *)
}.

Section Toolkit.

(** [TextItem.__init__(anchor=anchor, angle=angle, **kwargs)] and
    [QGraphicsItem.setPos] belong to the base classes. *)
Variable TextItem__init__ : pyval -> pyval -> Py label unit.
Variable QGraphicsItem_setPos : list pyval -> Py label unit.

(** [__init__(self, target, text, offset, anchor, angle, **kwargs)] *)
Definition __init__ (tgt : nat) (text offset anchor angle : pyval) : Py label unit :=
  TextItem__init__ anchor angle;;
  modify (fun l => mkLabel (Some tgt) (target l) (format l) (pos l) (connected l) (value_changes l));;
  modify (fun l => mkLabel (parentItem l) (Some tgt) (format l) (pos l) (connected l) (value_changes l));;
  modify (fun l => mkLabel (parentItem l) (target l) text (pos l) (connected l) (value_changes l));;
  (if isinstance offset [class_tuple; class_list] then
     match offset with
     | VTuple items | VList items => QGraphicsItem_setPos items   (* self.setPos( *offset) *)
     | _ => ret tt
     end
   else if isinstance offset [class_QPoint; class_QPointF] then
     QGraphicsItem_setPos [offset]
   else raise (TypeError "Offset parameter is the wrong data type"));;
  modify (fun l => mkLabel (parentItem l) (target l) (format l) (pos l) true (value_changes l));;
  modify (fun l => mkLabel (parentItem l) (target l) (format l) (pos l) (connected l)
                           (S (value_changes l))).

End Toolkit.

End TargetLabel.

(** ** widgets/PathButton.py *)

Module PathButton.

(** *** The module's top level

    Importing the module runs its statements in order; a name is resolved
    in the module's globals when the statement that uses it runs. *)

Inductive stmt : Type :=
| FromImport (module : string) (names : list (string * option string))
| Assign (target : string)
| ClassDef (name : string) (base : list string).   (* class name(a.b.c): *)

Definition source : list stmt :=
  [ FromImport ".." [("functions", Some "fn")];           (* from .. import functions as fn *)
    FromImport "..Qt" [("QtCore", None); ("QtGui", None)]; (* from ..Qt import QtCore, QtGui *)
    Assign "__all__";
    ClassDef "PathButton" ["QtWidgets"; "QPushButton"] ].

(** The names bound in the module's namespace. *)
Abbreviation globals := (gset string).

(** Builtins the module's code mentions; a global name that is neither
    bound nor a builtin raises [NameError]. *)
Definition builtins : gset string := {[ "super"; "min"; "float" ]}.

Definition load_name (name : string) : Py globals unit :=
  g ← get;
  if bool_decide (name ∈ g ∪ builtins) then ret tt
  else raise (NameError ("name '" ++ name ++ "' is not defined")).

Definition bound_name (n : string * option string) : string :=
  match snd n with
  | Some asname => asname
  | None => fst n
  end.

Definition exec (s : stmt) : Py globals unit :=
  match s with
  | FromImport _ names =>
      modify (fun g => list_to_set (map bound_name names) ∪ g)
  | Assign target =>
      modify (fun g => {[ target ]} ∪ g)
  | ClassDef name base =>
      match base with
      | head :: _ => load_name head
      | [] => ret tt
      end;;
      modify (fun g => {[ name ]} ∪ g)
  end.

Definition import_module : Py globals unit := for_each source exec.

(** *** The class body *)

Record QRectF : Type := mkQRectF { rx : float; ry : float; rwidth : float; rheight : float }.

(** [QRectF.adjusted] and [QRectF.center] of the toolkit. *)
Definition adjusted (r : QRectF) (dx1 dy1 dx2 dy2 : float) : QRectF :=
  mkQRectF (rx r + dx1) (ry r + dy1) (rwidth r + dx2 - dx1) (rheight r + dy2 - dy1).
Definition center (r : QRectF) : float * float :=
  (rx r + rwidth r / 2, ry r + rheight r / 2)%float.

Inductive exn_or (A : Type) : Type :=
| Value (a : A)
| ZeroDivisionError.
Arguments Value {A} a.
Arguments ZeroDivisionError {A}.

(** [a / b] on Python floats. *)
Definition truediv (a b : float) : exn_or float :=
  if PrimFloat.eqb b 0 then ZeroDivisionError else Value (a / b)%float.

(** [min(a, b)] *)
Definition py_min (a b : float) : float := if PrimFloat.ltb b a then b else a.

Section Toolkit.

Variable QPainterPath : Type.
Variable boundingRect : QPainterPath -> QRectF.
Variable Pen Brush : Type.
Variable mkPen : pyval -> Pen.          (* functions.mkPen *)
Variable mkBrush : pyval -> Brush.      (* functions.mkBrush *)
Variable default_size : float * float.  (* the size of a push button left alone *)

(** The attributes of a button, with the width and height of its widget
    base (as floats, which is how [paintEvent] uses them). *)
Record button : Type := mkButton {
  margin : float;
  path : option QPainterPath;
  pen : Pen;
  brush : Brush;
  width : float;
  height : float
}.

(** [__init__(self, parent, path, pen, brush, size, margin)] *)
Definition __init__ (path : option QPainterPath) (pen brush : pyval)
    (size : option (float * float)) (margin : float) : Py globals button :=
  load_name "QtWidgets";;                 (* QtWidgets.QPushButton.__init__(self, parent) *)
  let pen := match pen with
             | VStr "default" => VStr "k"
             | _ => pen
             end in
  let wh := match size with
            | Some wh => wh
            | None => default_size
            end in
  ret (mkButton margin path (mkPen pen) (mkBrush brush) (fst wh) (snd wh)).

(** What [paintEvent] asks of its [QPainter], in order. *)
Inductive painter_call : Type :=
| p_setRenderHint_Antialiasing
| p_translate (dx dy : float)
| p_scale (sx sy : float)
| p_setPen (p : Pen)
| p_setBrush (b : Brush)
| p_drawPath (path : QPainterPath)
| p_end.

(** [paintEvent(self, ev)], for a button whose [path] is set. *)
Definition paintEvent (self : button) (the_path : QPainterPath) : exn_or (list painter_call) :=
  let margin := margin self in
  let geom := adjusted (mkQRectF 0 0 (width self) (height self))
                       margin margin (- margin) (- margin) in
  let rect := boundingRect the_path in
  match truediv (rwidth geom) (rwidth rect), truediv (rheight geom) (rheight rect) with
  | Value sx, Value sy =>
      let scale := py_min sx sy in
      Value [ p_setRenderHint_Antialiasing;
              p_translate (fst (center geom)) (snd (center geom));
              p_scale scale scale;
              p_translate (- fst (center rect)) (- snd (center rect));
              p_setPen (pen self);
              p_setBrush (brush self);
              p_drawPath the_path;
              p_end ]
  | _, _ => ZeroDivisionError
  end.

(** [PathButton(parent, path, pen, brush, size, margin)] written in a
    program: the module is imported, the name [PathButton] is resolved in
    it, and [__init__] runs. *)
Definition construct (path : option QPainterPath) (pen brush : pyval)
    (size : option (float * float)) (margin : float) : Py globals button :=
  import_module;;
  load_name "PathButton";;
  __init__ path pen brush size margin.

End Toolkit.

End PathButton.

(** ** TargetItem.py: pens, brushes and hovering *)

Module TargetItemLook.

Section Toolkit.

Variables Pen Brush : Type.
Variable mkPen : pyval -> Pen.          (* functions.mkPen *)
Variable mkBrush : pyval -> Brush.      (* functions.mkBrush *)

(** The attributes [setPen], [setHoverPen], [setBrush], [setHoverBrush],
    [setMouseHover] and [hoverEvent] read or write, with the number of
    [self.update()] calls. *)
Record look : Type := mkLook {
  mouseHovering : bool;
  pen : Pen;
  hoverPen : Pen;
  brush : Brush;
  hoverBrush : Brush;
  currentPen : Pen;
  currentBrush : Brush;
  repaints : nat
}.

Definition update (s : look) : look :=
  mkLook (mouseHovering s) (pen s) (hoverPen s) (brush s) (hoverBrush s)
         (currentPen s) (currentBrush s) (S (repaints s)).
Definition set_currentPen (p : Pen) (s : look) : look :=
  mkLook (mouseHovering s) (pen s) (hoverPen s) (brush s) (hoverBrush s)
         p (currentBrush s) (repaints s).
Definition set_currentBrush (b : Brush) (s : look) : look :=
  mkLook (mouseHovering s) (pen s) (hoverPen s) (brush s) (hoverBrush s)
         (currentPen s) b (repaints s).

(** [setBrush(self, *args, **kwargs)] *)
Definition setBrush (args : pyval) : Py look unit :=
  modify (fun s => mkLook (mouseHovering s) (pen s) (hoverPen s) (mkBrush args)
                          (hoverBrush s) (currentPen s) (currentBrush s) (repaints s));;
  s ← get;
  if negb (mouseHovering s) then
    modify (set_currentBrush (brush s));;
    modify update
  else ret tt.

(** [setHoverBrush(self, *args, **kwargs)] *)
Definition setHoverBrush (args : pyval) : Py look unit :=
  modify (fun s => mkLook (mouseHovering s) (pen s) (hoverPen s) (brush s)
                          (mkBrush args) (currentPen s) (currentBrush s) (repaints s));;
  s ← get;
  if mouseHovering s then
    modify (set_currentBrush (hoverBrush s));;
    modify update
  else ret tt.

(** [setPen(self, *args, **kwargs)] *)
Definition setPen (args : pyval) : Py look unit :=
  modify (fun s => mkLook (mouseHovering s) (mkPen args) (hoverPen s) (brush s)
                          (hoverBrush s) (currentPen s) (currentBrush s) (repaints s));;
  s ← get;
  if negb (mouseHovering s) then
    modify (set_currentPen (pen s));;
    modify update
  else ret tt.

(** [setHoverPen(self, *args, **kwargs)] *)
Definition setHoverPen (args : pyval) : Py look unit :=
  modify (fun s => mkLook (mouseHovering s) (pen s) (mkPen args) (brush s)
                          (hoverBrush s) (currentPen s) (currentBrush s) (repaints s));;
  s ← get;
  if mouseHovering s then
    modify (set_currentPen (hoverPen s));;
    modify update
  else ret tt.

(** [setMouseHover(self, hover)] *)
Definition setMouseHover (hover : bool) : Py look unit :=
  s ← get;
  if Bool.eqb (mouseHovering s) hover then ret tt
  else
    modify (fun s => mkLook hover (pen s) (hoverPen s) (brush s) (hoverBrush s)
                            (currentPen s) (currentBrush s) (repaints s));;
    (if hover then
       modify (fun s => set_currentBrush (hoverBrush s) s);;
       modify (fun s => set_currentPen (hoverPen s) s)
     else
       modify (fun s => set_currentBrush (brush s) s);;
       modify (fun s => set_currentPen (pen s) s));;
    modify update.

(** A hover event: [ev.isExit()] and what [ev.acceptDrags(LeftButton)]
    answers. *)
Record HoverEvent : Type := mkHoverEvent { isExit : bool; acceptDrags : bool }.

(** [hoverEvent(self, ev)]; [movable] is the item's attribute. *)
Definition hoverEvent (movable : bool) (ev : HoverEvent) : Py look unit :=
  if movable && negb (isExit ev) && acceptDrags ev
  then setMouseHover true
  else setMouseHover false.

(** The part of [__init__] that sets the pens and brushes up; a [None]
    argument stands for its default. *)
Definition or_default (v dflt : pyval) : pyval :=
  match v with
  | VNone => dflt
  | _ => v
  end.

Definition no_hover (s : look) : look :=
  mkLook false (pen s) (hoverPen s) (brush s) (hoverBrush s)
         (currentPen s) (currentBrush s) (repaints s).
Definition current_from_normal (s : look) : look :=
  set_currentBrush (brush s) (set_currentPen (pen s) s).

Definition __init__ (pen hoverPen brush hoverBrush : pyval) : Py look unit :=
  modify no_hover;;                              (* self.mouseHovering = False *)
  setPen (or_default pen (VTuple [VInt 255; VInt 255; VInt 0]));;
  setHoverPen (or_default hoverPen (VTuple [VInt 255; VInt 0; VInt 255]));;
  setBrush (or_default brush (VTuple [VInt 0; VInt 0; VInt 255; VInt 50]));;
  setHoverBrush (or_default hoverBrush (VTuple [VInt 0; VInt 255; VInt 255; VInt 100]));;
  modify current_from_normal.                    (* self.currentPen = self.pen; ... *)

End Toolkit.

End TargetItemLook.

(** ** TargetItem.py: dragging and clicking *)

Module TargetItemMouse.

Inductive MouseButton : Type := LeftButton | RightButton | MiddleButton.

(** What the handlers read of a drag event. *)
Record MouseDragEvent : Type := mkDrag {
  drag_button : MouseButton;
  isStart : bool;
  isFinish : bool;
  buttonDownPos : float * float;
  pos : float * float
}.

Section Toolkit.

Variables QPainterPath QTransform : Type.
Variable Point : pyval -> exn + float * float.
Variable py_eq : pyval -> pyval -> bool.

(** [self.mapToParent(p)] of the toolkit, for the item as it is. *)
Variable mapToParent :
  TargetItem.item QPainterPath QTransform -> float * float -> float * float.

(** The item together with the attributes the mouse handlers keep;
    [cursorOffset] does not exist before the first drag. *)
Record dragged : Type := mkDragged {
  target : TargetItem.item QPainterPath QTransform;
  moving : bool;
  cursorOffset : option (float * float)
}.

(** Run a method of the item on the item inside. *)
Definition on_target {A} (m : Py (TargetItem.item QPainterPath QTransform) A) : Py dragged A :=
  fun s => match m (target s) with
           | Returned a it => Returned a (mkDragged it (moving s) (cursorOffset s))
           | Raised e it => Raised e (mkDragged it (moving s) (cursorOffset s))
           end.

(** [mouseDragEvent(self, ev)]; the result tells whether [ev.accept()] was
    called.  [movable] is the item's attribute. *)
Definition mouseDragEvent (movable : bool) (ev : MouseDragEvent) : Py dragged bool :=
  if negb movable || negb (match drag_button ev with LeftButton => true | _ => false end)
  then ret false
  else
    (if isStart ev then
       modify (fun s =>
         let p := TargetItem.base_pos _ _ (target s) in          (* self.pos() *)
         let q := mapToParent (target s) (buttonDownPos ev) in
         mkDragged (target s) true (Some (fst p - fst q, snd p - snd q)%float))
     else ret tt);;
    s ← get;
    if negb (moving s) then ret true
    else
      match cursorOffset s with
      | None => raise (PyException "'TargetItem' object has no attribute 'cursorOffset'")
      | Some off =>
          let q := mapToParent (target s) (pos ev) in
          on_target (TargetItem.setPos QPainterPath QTransform Point py_eq
                       (VQPointF (fst off + fst q) (snd off + snd q)))
      end;;
      (if isFinish ev then
         modify (fun s => mkDragged (target s) false (cursorOffset s));;
         on_target (modify (TargetItem.emit _ _ TargetItem.sigPositionChangeFinished))
       else ret tt);;
      ret true.

(** [mouseClickEvent(self, ev)], given the button of the click. *)
Definition mouseClickEvent (button : MouseButton) : Py dragged bool :=
  s ← get;
  if moving s && (match button with RightButton => true | _ => false end) then
    modify (fun s => mkDragged (target s) false (cursorOffset s));;
    on_target (modify (TargetItem.emit _ _ TargetItem.sigPositionChanged));;
    on_target (modify (TargetItem.emit _ _ TargetItem.sigPositionChangeFinished));;
    ret true
  else ret false.

End Toolkit.

End TargetItemMouse.

(** ** TargetItem.py: the attached label *)

Module TargetItemLabel.

Section Toolkit.

(** The base classes' part of a label, as in [TargetLabel]; removing the
    label from its scene and setting its text are the toolkit's. *)
Variable TextItem__init__ : pyval -> pyval -> Py TargetLabel.label unit.
Variable QGraphicsItem_setPos : list pyval -> Py TargetLabel.label unit.
Variable scene_removeItem : TargetLabel.label -> option exn.
Variable setText : pyval -> TargetLabel.label -> TargetLabel.label.

(** The label object before [TargetLabel.__init__] has run. *)
Definition blank_label : TargetLabel.label :=
  TargetLabel.mkLabel None None VNone None false 0.

(** [d.get(key, default)] on the keyword arguments. *)
Definition kwarg (opts : gmap string pyval) (key : string) (dflt : pyval) : pyval :=
  default dflt (opts !! key).

(** [TargetLabel(self, **labelOpts)] with the defaults of its signature. *)
Definition new_TargetLabel (self : nat) (labelOpts : gmap string pyval)
    : outcome TargetLabel.label unit :=
  TargetLabel.__init__ TextItem__init__ QGraphicsItem_setPos self
    (kwarg labelOpts "text" (VStr "x = {:0.3f}, y = {:0.3f}"))
    (kwarg labelOpts "offset" (VTuple [VInt 2; VInt 0]))
    (kwarg labelOpts "anchor" (VTuple [VInt 0; VFloat 0.5]))
    (kwarg labelOpts "angle" (VInt 0))
    blank_label.

(** [self.label.valueChanged()], counted as in [TargetLabel.__init__]: the
    text it formats and sets is the base class's. *)
Definition valueChanged (l : TargetLabel.label) : TargetLabel.label :=
  TargetLabel.mkLabel (TargetLabel.parentItem l) (TargetLabel.target l) (TargetLabel.format l)
    (TargetLabel.pos l) (TargetLabel.connected l) (S (TargetLabel.value_changes l)).

(** [_updateLabel(self)] on the [label] attribute. *)
Definition _updateLabel : Py (option TargetLabel.label) unit :=
  modify (fun label => valueChanged <$> label).

(** [setLabel(self, label=None, labelOpts=None)]; the store is the item's
    [label] attribute, [self] its identity. *)
Definition setLabel (self : nat) (label : pyval) (labelOpts : option (gmap string pyval))
    : Py (option TargetLabel.label) unit :=
  fun s =>
    match label, s with
    | VNone, Some l =>
        (* remove the label if it's already added *)
        match scene_removeItem l with
        | Some e => Raised e s
        | None => Returned tt None
        end
    | _, None =>
        (* add a label *)
        let labelOpts := default ∅ labelOpts in
        match new_TargetLabel self labelOpts with
        | Returned _ l => _updateLabel (Some l)
        | Raised e _ => Raised e None
        end
    | _, Some l =>
        (* update the label text *)
        _updateLabel (Some (setText label l))
    end.

End Toolkit.

End TargetItemLabel.

(** * Notions used in the statements *)

Open Scope list_scope.

(** The store an outcome leaves. *)
Definition store_of {S A} (r : outcome S A) : S :=
  match r with
  | Returned _ s => s
  | Raised _ s => s
  end.

(** What [redefinePalette] prints once the validation has passed. *)
Definition confirmed_msg : string :=
  "  NCM: confirmed all color definitions are present, setting palette".

(** One round of the notification loop of [redefinePalette]. *)
Definition notify (P : pydict) (obj : obj_id) : Py world unit :=
  modify (log (Call_paletteChange obj P));; NamedPen.paletteChange obj ArgColors.

(** Two stores agree on the palette dictionary, the registered objects and
    the trace. *)
Definition same_palette (w w' : world) : Prop :=
  Colors w' = Colors w /\ registered_objects w' = registered_objects w /\
  trace w' = trace w.

(** An opacity the binding takes: [None], or an integer that fits a C [int]. *)
Definition alpha_fits (al : option Z) : bool :=
  match al with
  | Some a => c_int a
  | None => true
  end.

(** The store after [qcol.setAlpha(alpha)] has returned, when
    [alpha is not None]. *)
Definition with_alpha (al : option Z) (r : ref) (w : world) : world :=
  match al with
  | Some a => set_heap (fun h r' => if Nat.eqb r' r then QColor_setAlpha a (h r') else h r') w
  | None => w
  end.

(** The colour of an object once the opacity is applied. *)
Definition resolved (al : option Z) (c : QColor) : QColor :=
  match al with
  | Some a => QColor_setAlpha a c
  | None => c
  end.

(** The store after [super().setColor(..)], after [self._identifier = ..]
    and after the allocation of a new pen. *)
Definition store_color (self : obj_id) (c : QColor) (w : world) : world :=
  set_pens (alter (fun p => mkNamedPen (_identifier p) (qpen_width p) (qpen_cosmetic p) c) self) w.

Definition renamed (self : obj_id) (i : string * option Z) (w : world) : world :=
  set_pens (alter (fun p => mkNamedPen i (qpen_width p) (qpen_cosmetic p) (qpen_color p)) self) w.

(** The width a new pen has after [setWidth(width)] has returned. *)
Definition stored_width (width : Z) : Z :=
  if (0 <=? width) && (width <=? 32767) then width else 1.

Definition allocated (name : string) (width : Z) (al : option Z) (w : world) : world :=
  set_pens <[next_id w := mkNamedPen (name, al) width true (mkQColor 0 0 0 255)]>
           (set_next_id (S (next_id w)) w).

(** What the palette looks like once pen [self] has applied its opacity [a]
    to the object behind [r]: the dictionary holds the same references, the
    shared object has the alpha channel the toolkit makes of [a] (a change
    whenever it was another one), the other objects are as before, and any
    other live pen that resolves a name bound to that object from then on
    gets the changed colour. *)
Definition palette_entry_mutated (self : obj_id) (w w' : world) (r : ref) (a : Z) : Prop :=
  Colors w' = Colors w /\
  heap w' r = QColor_setAlpha a (heap w r) /\
  QtGui.alpha (heap w' r) = clamp_alpha a /\
  (QtGui.alpha (heap w r) <> clamp_alpha a -> heap w' r <> heap w r) /\
  (forall r', r' <> r -> heap w' r' = heap w r') /\
  forall other q name',
    pens w !! other = Some q -> other <> self -> Colors w !! name' = Some r ->
    exists w'', NamedPen.setColor other (NamedPen.NameStr name') None w' = Returned tt w'' /\
                qpen_color <$> pens w'' !! other = Some (QColor_setAlpha a (heap w r)).

(** Following the specification's words: a pen keeps its identifier only,
    and its colour is whatever the palette gives for that identifier at the
    moment of the read.  ([NamedPen.color] is what the sources do.) *)
Definition resolve_now (w : world) (identifier : string * option Z) : option QColor :=
  match Colors w !! fst identifier with
  | Some r => Some (resolved (snd identifier) (heap w r))
  | None => None
  end.

(** ** Sample stores and toolkits *)

Definition black_heap : ref -> QColor := fun _ => mkQColor 0 0 0 255.

(** Pen 0 is [NamedPen("b")], pen 1 is [NamedPen("r", 2, alpha=50)]. *)
Definition two_pens : world :=
  store_of ((NamedPen.__init__ "b" 1 None;; NamedPen.__init__ "r" 2 (Some 50))
              (NamedColorManager.initial_world black_heap)).

(** The default palette with ["b"] bound to the object of ["r"]. *)
Definition swapped : pydict := <["b" := 2%nat]> (Colors two_pens).

(** A pen named ["b"] in a store whose palette [redefinePalette(None)] has
    emptied. *)
Definition orphaned : world :=
  store_of ((NamedPen.__init__ "b" 1 None;; redefinePalette ArgNone)
              (NamedColorManager.initial_world black_heap)).

(** Pen 0 is [NamedPen("d", alpha=50)], pen 1 is [NamedPen("d")] after
    [setAlpha(255)], pen 2 is [NamedPen("gr_fg")]: the object that ["d"]
    and ["gr_fg"] share is opaque again. *)
Definition faded : world :=
  store_of ((NamedPen.__init__ "d" 1 (Some 50);; NamedPen.__init__ "d" 1 None;;
             NamedPen.setAlpha 1%nat (Some 255);; NamedPen.__init__ "gr_fg" 1 None)
              (NamedColorManager.initial_world black_heap)).

(** Pen 0 is [NamedPen("d")], pen 1 is [NamedPen("d", alpha=50)]. *)
Definition translucent : world :=
  store_of ((NamedPen.__init__ "d" 1 None;; NamedPen.__init__ "d" 1 (Some 50))
              (NamedColorManager.initial_world black_heap)).

(** A toolkit that does nothing, for closed examples. *)
Definition no_base_init : pyval -> pyval -> Py TargetLabel.label unit := fun _ _ => ret tt.
Definition no_setPos : list pyval -> Py TargetLabel.label unit := fun _ => ret tt.

(** [float(v)] of Python on numbers: an integer is rounded to the nearest
    float, one beyond the floats raises.  What is no number is refused (a
    string is taken to spell no number). *)
Definition float_of_Z (n : Z) : float := SF2Prim (binary_normalize prec emax n 0 false).
Definition py_float (v : pyval) : exn + float :=
  match v with
  | VInt n => if is_infinity (float_of_Z n) then inl OverflowError else inr (float_of_Z n)
  | VFloat x => inr x
  | VBool b => inr (if b then 1 else 0)%float
  | VStr _ => inl (ValueError "could not convert string to float")
  | _ => inl (TypeError "float() argument must be a string or a number")
  end.

(** [Point(v)] of the library, which is not among the sources, on what
    [setPos] hands to it: of a sequence it takes [float(v[0])] and
    [float(v[1])], in this order, whatever follows them. *)
Definition Point_of_items (items : list pyval) (kind : string) : exn + float * float :=
  match items with
  | [] => inl (IndexError (kind +:+ " index out of range"))
  | x :: rest =>
      match py_float x with
      | inl e => inl e
      | inr x' =>
          match rest with
          | [] => inl (IndexError (kind +:+ " index out of range"))
          | y :: _ =>
              match py_float y with
              | inl e => inl e
              | inr y' => inr (x', y')
              end
          end
      end
  end.
Definition Point_of_pair (v : pyval) : exn + float * float :=
  match v with
  | VTuple items => Point_of_items items "tuple"
  | VList items => Point_of_items items "list"
  | VQPointF x y => inr (x, y)
  | VQPoint x y => inr (float_of_Z x, float_of_Z y)
  | VInt _ | VFloat _ | VBool _ =>
      match py_float v with
      | inl e => inl e
      | inr x => inr (x, x)
      end
  | _ => inl (TypeError "Point: argument is no sequence, number or point")
  end.
Definition origin_item : TargetItem.item unit unit :=
  TargetItem.mkItem unit unit (VTuple [VInt 0; VInt 0]) tt None (0, 0)%float None [] 0.
Definition fresh_label : TargetLabel.label :=
  TargetLabel.mkLabel None None VNone None false 0.

(** ** Notions used for the notification of registered objects *)

(** [register(o)] for the objects of a list, one after the other. *)
Definition register_all (objs : list obj_id) : Py world unit :=
  for_each objs NamedColorManager.register.

(** The collector reclaims the objects of a list. *)
Definition collect_all (gone : list obj_id) (w : world) : world :=
  foldr collect w gone.

(** The calls of [paletteChange] on [o], whatever their argument, among the
    events a run has added to the trace. *)
Definition is_call_on (o : obj_id) (e : event) : bool :=
  match e with
  | Call_paletteChange o' _ => Nat.eqb o' o
  | Call_paletteChange_None o' => Nat.eqb o' o
  | _ => false
  end.

Definition calls_on (o : obj_id) (w w' : world) : list event :=
  filter (fun e => is_call_on o e = true) (drop (length (trace w)) (trace w')).

(** Three live pens, the registry emptied by a new [NamedColorManager]. *)
Definition unregistered : world :=
  store_of (NamedColorManager.__init__
              (store_of ((NamedPen.__init__ "b" 1 None;; NamedPen.__init__ "r" 2 (Some 50);;
                          NamedPen.__init__ "g" 1 None)
                           (NamedColorManager.initial_world black_heap)))).

(** A manager as [functions.py] sets it up, with the one pen
    [NamedPen("b")]. *)
Definition one_pen : world :=
  store_of (NamedPen.__init__ "b" 1 None (NamedColorManager.initial_world black_heap)).

(** ** Notions used for the shape of the target *)

(** The angle, in device space, of the view's x axis under the device
    transform [dt], in radians. *)
Definition x_axis_angle {T : Type} (map_point : T -> float * float -> float * float)
    (atan2 : float -> float -> float) (dt : T) : float :=
  let p1 := map_point dt (1, 0)%float in
  let p0 := map_point dt (0, 0)%float in
  atan2 (snd p1 - snd p0)%float (fst p1 - fst p0)%float.

(** A path translated to the device position [at_] and rotated by [angle]
    radians, the toolkit's [rotate] taking degrees. *)
Definition placed {P T : Type} (QTransform_new : T) (translate : T -> float -> float -> T)
    (rotate : T -> float -> T) (map_path : T -> P -> P) (pi : float)
    (at_ : float * float) (angle : float) (path : P) : P :=
  map_path (rotate (translate QTransform_new (fst at_) (snd at_)) (angle * 180 / pi)%float) path.

(** A toolkit on a line, for closed examples: a path is the place of a
    point, a transform shifts by a whole number, there is nothing to
    rotate, and the x axis keeps its direction. *)
Definition Z_of_float (x : float) : Z :=
  match Prim2SF x with
  | S754_finite s m e => (if s then -1 else 1) * Z.shiftl (Zpos m) e
  | _ => 0
  end.
Definition shift_translate (t : Z) (x y : float) : Z := t + Z_of_float x.
Definition shift_rotate (t : Z) (degrees : float) : Z := t.
Definition shift_point (t : Z) (p : float * float) : float * float :=
  (fst p + float_of_Z t, snd p)%float.
Definition shift_path (t : Z) (p : Z) : Z := p + t.
Definition shift_invert (t : Z) : exn + Z := inr (- t).
Definition level_atan2 (y x : float) : float := 0%float.
Definition shifted_item (dt : Z) : TargetItem.item Z Z :=
  TargetItem.mkItem Z Z (VTuple [VInt 0; VInt 0]) 7 (Some 3) (0, 0)%float (Some dt) [] 0.

(** ** Notions used in the further properties *)

(** The name and the opacity a live pen holds. *)
Definition pen_name (w : world) (o : obj_id) : option string :=
  fst ∘ _identifier <$> pens w !! o.
Definition pen_alpha (w : world) (o : obj_id) : option (option Z) :=
  snd ∘ _identifier <$> pens w !! o.

(** The store [redefinePalette] has reached when it starts to notify:
    the message is printed and the palette holds [d]. *)
Definition replaced (d : pydict) (w : world) : world :=
  set_Colors (fun _ => d) (log (Print confirmed_msg) w).

(** The events a run has added to the trace. *)
Definition new_events (w w' : world) : list event :=
  drop (length (trace w)) (trace w').

(** A small toolkit for closed examples: paths are numbers, a transform is
    invertible or not, and nothing is really drawn. *)
Definition number_eq (a b : pyval) : bool :=
  match a, b with
  | VInt x, VInt y => Z.eqb x y
  | _, _ =>
      match py_float a, py_float b with
      | inr x, inr y => PrimFloat.eqb x y
      | _, _ => false
      end
  end.
Definition sample_py_eq (a b : pyval) : bool :=
  match a, b with
  | VTuple xs, VTuple ys =>
      Nat.eqb (length xs) (length ys) &&
      forallb (fun xy => number_eq (fst xy) (snd xy)) (combine xs ys)
  | _, _ => false
  end.
Definition sample_invert (t : bool) : exn + bool :=
  if t then inr t else inl (PyException "Transform is not invertible.").
Definition sample_item (dt : option bool) : TargetItem.item nat bool :=
  TargetItem.mkItem nat bool (VTuple [VInt 0; VInt 0]) 7%nat None (0, 0)%float dt [] 0.

(** The pen and brush in use are the hover ones exactly while the mouse
    hovers over the item. *)
Definition look_consistent {Pen Brush} (s : TargetItemLook.look Pen Brush) : Prop :=
  TargetItemLook.currentPen _ _ s
  = (if TargetItemLook.mouseHovering _ _ s
     then TargetItemLook.hoverPen _ _ s else TargetItemLook.pen _ _ s) /\
  TargetItemLook.currentBrush _ _ s
  = (if TargetItemLook.mouseHovering _ _ s
     then TargetItemLook.hoverBrush _ _ s else TargetItemLook.brush _ _ s).

(** Pens and brushes that are the values they are made from. *)
Definition sample_look : TargetItemLook.look pyval pyval :=
  TargetItemLook.mkLook pyval pyval true (VStr "y") (VStr "m") (VStr "b") (VStr "c")
    (VStr "m") (VStr "c") 0.

(** A target at rest, one in the middle of a drag, and a mapping to the
    parent that is the identity. *)
Definition resting : TargetItemMouse.dragged nat bool :=
  TargetItemMouse.mkDragged nat bool (sample_item None) false None.
Definition in_a_drag : TargetItemMouse.dragged nat bool :=
  TargetItemMouse.mkDragged nat bool (sample_item None) true (Some (0, 0)%float).
Definition same_coordinates (it : TargetItem.item nat bool) (p : float * float)
    : float * float := p.

(** A scene that lets a label go, and a label that stores its text as its
    format. *)
Definition removable (l : TargetLabel.label) : option exn := None.
Definition text_as_format (text : pyval) (l : TargetLabel.label) : TargetLabel.label :=
  TargetLabel.mkLabel (TargetLabel.parentItem l) (TargetLabel.target l) text
    (TargetLabel.pos l) (TargetLabel.connected l) (TargetLabel.value_changes l).

Definition left_button (b : TargetItemMouse.MouseButton) : bool :=
  match b with
  | TargetItemMouse.LeftButton => true
  | _ => false
  end.

(** A path that is a horizontal line, and a button of the default size. *)
Definition flat_rect (p : unit) : PathButton.QRectF := PathButton.mkQRectF 0 0 10 0.
Definition plain_button : PathButton.button unit unit unit :=
  PathButton.mkButton unit unit unit 7 (Some tt) tt tt 30 30.
(** * Properties *)

#[global] Arguments NamedColorManager.DEFAULT_COLORS : simpl never.
#[global] Arguments odict_keys : simpl never.
#[global] Arguments c_int : simpl never.
#[global] Arguments clamp_alpha : simpl never.

Ltac run := unfold mbind, Py_bind, mret, Py_ret, bind, ret, raise, get, gets, modify in *;
            simpl in *.

Lemma bind_returned {S A B} (m : Py S A) (k : A -> Py S B) s a s' :
  m s = Returned a s' -> (m ≫= k) s = k a s'.
Proof. intros H. run. by rewrite H. Qed.

Lemma bind_raised {S A B} (m : Py S A) (k : A -> Py S B) s e s' :
  m s = Raised e s' -> (m ≫= k) s = Raised e s'.
Proof. intros H. run. by rewrite H. Qed.

Lemma bind_inv {S A B} (m : Py S A) (k : A -> Py S B) s b s'' :
  (m ≫= k) s = Returned b s'' ->
  exists a s', m s = Returned a s' /\ k a s' = Returned b s''.
Proof. run. destruct (m s) as [a s'|e s']; [eauto | discriminate]. Qed.

(** ** The palette manager *)

Section Manager.

Import NamedColorManager.

Lemma check_keys_complete keys (d : pydict) w :
  (forall k, k ∈ keys -> is_Some (d !! k)) ->
  check_keys keys d w = Returned tt w.
Proof.
  induction keys as [|k keys IH]; intros Hall; [done|].
  simpl. rewrite bool_decide_true by (apply Hall; left).
  apply IH. intros k' Hk'. apply Hall. by right.
Qed.

Lemma check_keys_missing keys (d : pydict) w :
  (exists k, k ∈ keys /\ d !! k = None) ->
  exists key, key ∈ keys /\ d !! key = None /\
    check_keys keys d w
    = Raised (ValueError ("Palette definition is missing '" +:+ key +:+ "'")) w.
Proof.
  induction keys as [|k keys IH]; intros (k0 & Hin & Hk0).
  - by apply elem_of_nil in Hin.
  - simpl. destruct (d !! k) as [r|] eqn:Hk.
    + rewrite bool_decide_true by eauto.
      apply elem_of_cons in Hin as [->|Hin]; [congruence|].
      destruct IH as (key & ? & ? & ?); [eauto|].
      exists key. split_and!; [by right|done|done].
    + rewrite bool_decide_false by (by intros [? ?]).
      exists k. split_and!; [by left|done|done].
Qed.

Lemma check_keys_returned keys (d : pydict) w u w' :
  check_keys keys d w = Returned u w' ->
  w' = w /\ forall k, k ∈ keys -> is_Some (d !! k).
Proof.
  induction keys as [|k keys IH]; simpl.
  - intros [= <-]. split; [done|]. intros k Hk. by apply elem_of_nil in Hk.
  - case_bool_decide as Hk; [|discriminate].
    intros H. destruct (IH H) as [-> Hall]. split; [done|].
    intros k' [->|Hk']%elem_of_cons; auto.
Qed.

End Manager.

Lemma same_palette_refl w : same_palette w w.
Proof. by repeat split. Qed.

Lemma same_palette_trans w1 w2 w3 :
  same_palette w1 w2 -> same_palette w2 w3 -> same_palette w1 w3.
Proof. unfold same_palette. intros (?&?&?) (?&?&?). split_and!; congruence. Qed.

Lemma subscript_store d name w : store_of (subscript d name w) = w.
Proof.
  unfold subscript, getitem. destruct (contents w d) as [m|]; [|done].
  by destruct (m !! name).
Qed.

Lemma hit_or_miss (d : pydict) name w :
  (exists r, d !! name = Some r /\ getitem d name w = Returned r w) \/
  (d !! name = None /\ getitem d name w = Raised (KeyError name) w).
Proof. unfold getitem. destruct (d !! name); [left|right]; eauto. Qed.

Lemma paletteChange_same_palette self color_dict w :
  same_palette w (store_of (NamedPen.paletteChange self color_dict w)).
Proof.
  unfold NamedPen.paletteChange, NamedPen.the_pen. run.
  destruct (pens w !! self) as [[[name al] ? ? ?]|]; simpl; [|apply same_palette_refl].
  unfold try_except_ValueError, subscript, NamedColorManager.colors.
  destruct color_dict as [| |d]; run;
    (match goal with |- context [getitem ?m name w] =>
       destruct (hit_or_miss m name w) as [(r & _ & ->)|[_ ->]] end);
    simpl; try apply same_palette_refl;
    destruct al as [a|]; unfold qcol_setAlpha; try destruct (c_int a); by repeat split.
Qed.

(** The loop of [redefinePalette] over pens under observation is the loop
    of [notify] on the palette the loop starts with. *)
Lemma observed_loop l w :
  for_each l (fun obj => observed NamedPen.paletteChange obj ArgColors) w
  = for_each l (notify (Colors w)) w.
Proof.
  revert w. induction l as [|o l IH]; intros w; [reflexivity|].
  cbn [for_each]. unfold bind.
  change (observed NamedPen.paletteChange o ArgColors w) with (notify (Colors w) o w).
  pose proof (paletteChange_same_palette o ArgColors (log (Call_paletteChange o (Colors w)) w))
    as (HC & _ & _).
  unfold notify at 1 2. unfold mbind, Py_bind, bind, modify.
  destruct (NamedPen.paletteChange o ArgColors _) as [[] w1|]; [|reflexivity].
  cbn [store_of] in HC. rewrite IH, HC. reflexivity.
Qed.

Lemma notify_loop l P w w' :
  for_each l (notify P) w = Returned tt w' ->
  Colors w' = Colors w /\ registered_objects w' = registered_objects w /\
  trace w' = trace w ++ map (fun o => Call_paletteChange o P) l.
Proof.
  revert w. induction l as [|o l IH]; intros w; simpl.
  - intros [= <-]. by rewrite app_nil_r.
  - unfold notify at 1. run.
    pose proof (paletteChange_same_palette o ArgColors (log (Call_paletteChange o P) w))
      as (HC & HR & HT).
    destruct (NamedPen.paletteChange o ArgColors _) as [[] w1|]; [|discriminate].
    simpl in *. intros H. apply IH in H as (-> & -> & ->).
    rewrite HC, HR, HT. split_and!; [done..|]. by rewrite <- app_assoc.
Qed.

(** The three steps of [redefinePalette]: validation, replacement,
    notification. *)
Lemma redefinePalette_unfold pc color_dic w :
  NamedColorManager.redefinePalette pc color_dic w =
  match (match contents w color_dic with
         | Some d => NamedColorManager.check_keys (odict_keys NamedColorManager.DEFAULT_COLORS) d w
         | None => Returned tt w
         end) with
  | Raised e s => Raised e s
  | Returned _ w1 =>
      let w2 := set_Colors (fun _ => ∅) (log (Print confirmed_msg) w1) in
      match NamedColorManager.update color_dic w2 with
      | Raised e s => Raised e s
      | Returned _ w3 =>
          match for_each (WeakSet_iter (registered_objects w3))
                  (fun obj => pc obj ArgColors) w3 with
          | Raised e s => Raised e s
          | Returned _ w4 => Returned tt (log Emit_paletteHasChangedSignal w4)
          end
      end
  end.
Proof.
  unfold NamedColorManager.redefinePalette, NamedColorManager.DEBUG, print, confirmed_msg.
  unfold mbind, Py_bind, mret, Py_ret, bind, ret, get, modify.
  destruct (contents w color_dic) as [d|]; [|reflexivity].
  destruct (NamedColorManager.check_keys (odict_keys NamedColorManager.DEFAULT_COLORS) d w);
    reflexivity.
Qed.

(** The same for pens under observation, with the calls as the trace
    records them. *)
Lemma redefinePalette_unfold_pens color_dic w :
  redefinePalette color_dic w =
  match (match contents w color_dic with
         | Some d => NamedColorManager.check_keys (odict_keys NamedColorManager.DEFAULT_COLORS) d w
         | None => Returned tt w
         end) with
  | Raised e s => Raised e s
  | Returned _ w1 =>
      let w2 := set_Colors (fun _ => ∅) (log (Print confirmed_msg) w1) in
      match NamedColorManager.update color_dic w2 with
      | Raised e s => Raised e s
      | Returned _ w3 =>
          match for_each (WeakSet_iter (registered_objects w3))
                  (fun obj => modify (log (Call_paletteChange obj (Colors w3)));;
                              NamedPen.paletteChange obj ArgColors) w3 with
          | Raised e s => Raised e s
          | Returned _ w4 => Returned tt (log Emit_paletteHasChangedSignal w4)
          end
      end
  end.
Proof.
  unfold redefinePalette. rewrite redefinePalette_unfold.
  destruct (match contents w color_dic with Some _ => _ | None => _ end) as [[] w1|];
    [|reflexivity].
  cbv zeta. destruct (NamedColorManager.update color_dic _) as [[] w3|]; [|reflexivity].
  rewrite observed_loop. reflexivity.
Qed.

(** C1.  A dictionary that lacks a key of [DEFAULT_COLORS] makes
    [redefinePalette] raise [ValueError] naming a key that is missing, and
    the store the exception leaves is the store of the call: the palette is
    as it was, nothing was printed, no [paletteChange] was called and no
    signal emitted.  [color_dic] may be any dictionary, [functions.Colors]
    itself included. *)
Theorem redefinePalette_missing_key_raises
    (paletteChange : obj_id -> dict_arg -> Py world unit)
    (w : world) (color_dic : dict_arg) (d : pydict) :
  contents w color_dic = Some d ->
  (exists k, k ∈ odict_keys NamedColorManager.DEFAULT_COLORS /\ d !! k = None) ->
  exists key,
    key ∈ odict_keys NamedColorManager.DEFAULT_COLORS /\ d !! key = None /\
    NamedColorManager.redefinePalette paletteChange color_dic w
    = Raised (ValueError ("Palette definition is missing '" +:+ key +:+ "'")) w.
Proof.
  intros Hd Hmiss.
  destruct (check_keys_missing _ d w Hmiss) as (key & Hin & Hnone & Hraise).
  exists key. split_and!; [done..|].
  by rewrite redefinePalette_unfold, Hd, Hraise.
Qed.

Lemma redefinePalette_missing_key_raises_witness :
  exists key,
    key ∈ odict_keys NamedColorManager.DEFAULT_COLORS /\
    ({[ "b" := 40%nat ]} : pydict) !! key = None /\
    NamedColorManager.redefinePalette NamedPen.paletteChange
      (ArgDict {[ "b" := 40%nat ]}) (NamedColorManager.initial_world black_heap)
    = Raised (ValueError ("Palette definition is missing '" +:+ key +:+ "'"))
             (NamedColorManager.initial_world black_heap).
Proof.
  apply (redefinePalette_missing_key_raises NamedPen.paletteChange
           (NamedColorManager.initial_world black_heap)
           (ArgDict {[ "b" := 40%nat ]}) {[ "b" := 40%nat ]}).
  - reflexivity.
  - exists "g". split; [|reflexivity].
    apply list_elem_of_In. vm_compute. right; left; reflexivity.
Defined.

(** C9.  [redefinePalette(None)] skips the validation, prints, clears the
    palette and then raises [TypeError] out of [dict.update(None)]: the
    store it leaves has an empty palette, in which no name resolves any
    more, and its trace has grown by the one [print] only, so no
    [paletteChange] was called and no signal emitted. *)
Theorem redefinePalette_None_not_atomic
    (paletteChange : obj_id -> dict_arg -> Py world unit) (w : world) :
  let w' := set_Colors (fun _ => ∅) (log (Print confirmed_msg) w) in
  NamedColorManager.redefinePalette paletteChange ArgNone w
  = Raised (TypeError "'NoneType' object is not iterable") w' /\
  Colors w' = ∅ /\
  trace w' = trace w ++ [Print confirmed_msg] /\
  registered_objects w' = registered_objects w /\
  pens w' = pens w /\
  forall name, subscript ArgColors name w' = Raised (KeyError name) w'.
Proof.
  intros w'. split_and!; try reflexivity.
Qed.

(** *** A successful [redefinePalette] *)

Lemma redefinePalette_returned color_dic w w' :
  redefinePalette color_dic w = Returned tt w' ->
  exists d w3,
    contents w color_dic = Some d /\
    (forall k, k ∈ odict_keys NamedColorManager.DEFAULT_COLORS -> is_Some (d !! k)) /\
    NamedColorManager.update color_dic
      (set_Colors (fun _ => ∅) (log (Print confirmed_msg) w)) = Returned tt w3 /\
    Colors w' = Colors w3 /\
    trace w' = trace w ++ [Print confirmed_msg]
               ++ map (fun o => Call_paletteChange o (Colors w')) (WeakSet_iter (registered_objects w))
               ++ [Emit_paletteHasChangedSignal].
Proof.
  rewrite redefinePalette_unfold_pens.
  destruct (contents w color_dic) as [d|] eqn:Hd.
  - destruct (NamedColorManager.check_keys _ d w) as [[] w1|] eqn:Hck; [|discriminate].
    apply check_keys_returned in Hck as [-> Hall]. cbv zeta.
    destruct (NamedColorManager.update color_dic _) as [[] w3|] eqn:Hup; [|discriminate].
    destruct (for_each _ _ w3) as [[] w4|] eqn:Hloop; [|discriminate].
    intros [= <-].
    apply (notify_loop _ (Colors w3)) in Hloop as (HC & HR & HT).
    exists d, w3. split_and!; [done..| |].
    + simpl. done.
    + simpl. rewrite HT, HC.
      assert (registered_objects w3 = registered_objects w /\
              trace w3 = trace w ++ [Print confirmed_msg]) as [-> ->].
      { unfold NamedColorManager.update in Hup.
        destruct color_dic; simpl in Hup; [discriminate|..];
          by injection Hup as <-. }
      by rewrite <- !app_assoc.
  - destruct color_dic; discriminate.
Qed.

(** Supporting C3: with a dictionary that is another object than
    [functions.Colors], a call that returns leaves the palette with exactly
    the entries of that dictionary. *)
Lemma redefinePalette_replaces_wholesale (d : pydict) w w' :
  redefinePalette (ArgDict d) w = Returned tt w' ->
  Colors w' = d.
Proof.
  intros H. apply redefinePalette_returned in H as (d' & w3 & Hd & _ & Hup & -> & _).
  unfold NamedColorManager.update in Hup. simpl in *.
  injection Hup as <-. simpl. apply (right_id ∅ (∪)).
Qed.

(** The same call does return when no registered pen has lost its name. *)
Lemma redefinePalette_returns_without_observers (d : pydict) w :
  (forall k, k ∈ odict_keys NamedColorManager.DEFAULT_COLORS -> is_Some (d !! k)) ->
  registered_objects w = ∅ ->
  exists w', redefinePalette (ArgDict d) w = Returned tt w'.
Proof.
  intros Hall Hreg. rewrite redefinePalette_unfold_pens.
  cbn [contents]. rewrite check_keys_complete by done.
  cbv zeta. cbn [NamedColorManager.update contents].
  unfold NamedColorManager.update. cbn [contents set_Colors log registered_objects].
  rewrite Hreg. unfold WeakSet_iter. rewrite elements_empty. simpl. eauto.
Qed.

(** C3.  Handing [redefinePalette] the manager's own dictionary, the object
    [colors()] returns, passes the validation (the dictionary has every
    default key) and returns, and the palette is then empty: [clear()] has
    emptied the very dictionary that [update] was to copy from. *)
Theorem redefinePalette_own_dictionary_empties (others : ref -> QColor) :
  let w := NamedColorManager.initial_world others in
  (forall k, k ∈ odict_keys NamedColorManager.DEFAULT_COLORS -> is_Some (Colors w !! k)) /\
  Colors w !! "b" = Some 0%nat /\
  exists w', (NamedColorManager.colors ≫= redefinePalette) w = Returned tt w' /\
             Colors w' = ∅ /\ Colors w' !! "b" = None.
Proof.
  intros w. split_and!.
  - apply (Forall_forall (fun k => is_Some (Colors w !! k))).
    apply (bool_decide_unpack _). vm_compute. exact I.
  - reflexivity.
  - eexists. split_and!; [vm_compute; reflexivity | reflexivity | reflexivity].
Qed.

(** *** Who is notified *)

Lemma register_all_returns objs w0 :
  register_all objs w0 = Returned tt (store_of (register_all objs w0)) /\
  registered_objects (store_of (register_all objs w0))
  = list_to_set objs ∪ registered_objects w0.
Proof.
  unfold register_all. revert w0. induction objs as [|o objs IH]; intros w0.
  - split; [reflexivity|]. cbn. set_solver.
  - change (for_each (o :: objs) NamedColorManager.register w0)
      with (for_each objs NamedColorManager.register (set_registered (WeakSet_add o) w0)).
    destruct (IH (set_registered (WeakSet_add o) w0)) as [Hret Hreg].
    split; [exact Hret|]. rewrite Hreg. cbn. unfold WeakSet_add. set_solver.
Qed.

Lemma collect_all_registered gone w :
  registered_objects (collect_all gone w) = registered_objects w ∖ list_to_set gone.
Proof.
  induction gone as [|o gone IH].
  - cbn. set_solver.
  - change (registered_objects (collect_all (o :: gone) w))
      with (WeakSet_discard o (registered_objects (collect_all gone w))).
    rewrite IH. unfold WeakSet_discard. set_solver.
Qed.

Lemma calls_on_absent (P : pydict) (l : list obj_id) (o : obj_id) :
  o ∉ l ->
  filter (fun e => is_call_on o e = true) (map (fun o' => Call_paletteChange o' P) l) = [].
Proof.
  induction l as [|o' l IH]; [done|]. intros [Hne ?]%not_elem_of_cons.
  rewrite map_cons, filter_cons_False; [auto|].
  cbn. intros Heq%Nat.eqb_eq. congruence.
Qed.

Lemma calls_on_present (P : pydict) (l : list obj_id) (o : obj_id) :
  NoDup l -> o ∈ l ->
  filter (fun e => is_call_on o e = true) (map (fun o' => Call_paletteChange o' P) l)
  = [Call_paletteChange o P].
Proof.
  induction l as [|o' l IH]; intros Hnd Ho; [by apply elem_of_nil in Ho|].
  apply NoDup_cons in Hnd as [Hnotin Hnd]. rewrite map_cons.
  destruct (decide (o' = o)) as [->|Hne].
  - rewrite filter_cons_True by (cbn; apply Nat.eqb_refl).
    by rewrite calls_on_absent.
  - rewrite filter_cons_False by (cbn; intros Heq%Nat.eqb_eq; congruence).
    apply elem_of_cons in Ho as [->|Ho]; [done|]. auto.
Qed.

(** C4.  Take any store, register objects with [register], and let the
    collector reclaim some objects.  A call of [redefinePalette] that then
    returns has called [paletteChange] exactly once on every object that
    was registered, by these calls or before, and is still alive, each time
    with the palette object, which holds the new mapping at that moment; it
    has called it on no other object; and it has emitted
    [paletteHasChangedSignal] last.  The events of the call are the
    [print], the calls in the order the [WeakSet] yields its members, and
    the signal. *)
Theorem redefinePalette_notifies_each_once
    (objs gone : list obj_id) (color_dic : dict_arg) (w0 w' : world) :
  let w := collect_all gone (store_of (register_all objs w0)) in
  redefinePalette color_dic w = Returned tt w' ->
  register_all objs w0 = Returned tt (store_of (register_all objs w0)) /\
  (forall o, o ∈ objs \/ o ∈ registered_objects w0 -> o ∉ gone ->
     calls_on o w w' = [Call_paletteChange o (Colors w')]) /\
  (forall o, o ∈ gone \/ ((o ∉ objs) /\ (o ∉ registered_objects w0)) ->
     calls_on o w w' = []) /\
  (forall d, color_dic = ArgDict d -> Colors w' = d) /\
  drop (length (trace w)) (trace w')
  = [Print confirmed_msg]
    ++ map (fun o => Call_paletteChange o (Colors w')) (WeakSet_iter (registered_objects w))
    ++ [Emit_paletteHasChangedSignal].
Proof.
  intros w H.
  destruct (register_all_returns objs w0) as [Hret Hreg].
  assert (Hmem : forall o, o ∈ WeakSet_iter (registered_objects w) <->
                           (o ∈ objs \/ o ∈ registered_objects w0) /\ o ∉ gone).
  { intros o. unfold WeakSet_iter. rewrite elem_of_elements. unfold w.
    rewrite collect_all_registered, Hreg. set_solver. }
  assert (Hnd : NoDup (WeakSet_iter (registered_objects w))) by apply NoDup_elements.
  apply redefinePalette_returned in H as (d & w3 & Hd & _ & Hup & HC & HT).
  assert (Hnew : drop (length (trace w)) (trace w')
                 = [Print confirmed_msg]
                   ++ map (fun o => Call_paletteChange o (Colors w'))
                        (WeakSet_iter (registered_objects w))
                   ++ [Emit_paletteHasChangedSignal]).
  { rewrite HT. apply drop_app_length. }
  assert (Hcalls : forall o, calls_on o w w'
            = filter (fun e => is_call_on o e = true)
                (map (fun o' => Call_paletteChange o' (Colors w'))
                   (WeakSet_iter (registered_objects w)))).
  { intros o. unfold calls_on. rewrite Hnew, !filter_app.
    rewrite filter_cons_False, filter_nil by (cbn; discriminate).
    rewrite (filter_cons_False _ Emit_paletteHasChangedSignal), filter_nil
      by (cbn; discriminate).
    by rewrite app_nil_r. }
  split_and!.
  - exact Hret.
  - intros o Ho Hgone. rewrite Hcalls. apply calls_on_present; [done|].
    by apply Hmem.
  - intros o Ho. rewrite Hcalls. apply calls_on_absent.
    rewrite Hmem. intros [[?|?] ?]; destruct Ho as [?|[? ?]]; done.
  - intros d' ->. rewrite HC. unfold NamedColorManager.update in Hup. cbn in Hup.
    injection Hup as <-. cbn. apply (right_id ∅ (∪)).
  - exact Hnew.
Qed.

Lemma redefinePalette_notifies_each_once_witness :
  let w := collect_all [2%nat] (store_of (register_all [0%nat; 1%nat; 2%nat] unregistered)) in
  let w' := store_of (redefinePalette (ArgDict swapped) w) in
  register_all [0%nat; 1%nat; 2%nat] unregistered
  = Returned tt (store_of (register_all [0%nat; 1%nat; 2%nat] unregistered)) /\
  (forall o, o ∈ [0%nat; 1%nat; 2%nat] \/ o ∈ registered_objects unregistered ->
     o ∉ [2%nat] -> calls_on o w w' = [Call_paletteChange o (Colors w')]) /\
  (forall o, o ∈ [2%nat] \/
             ((o ∉ [0%nat; 1%nat; 2%nat]) /\ (o ∉ registered_objects unregistered)) ->
     calls_on o w w' = []) /\
  (forall d, ArgDict swapped = ArgDict d -> Colors w' = d) /\
  drop (length (trace w)) (trace w')
  = [Print confirmed_msg]
    ++ map (fun o => Call_paletteChange o (Colors w')) (WeakSet_iter (registered_objects w))
    ++ [Emit_paletteHasChangedSignal].
Proof.
  intros w w'.
  apply (redefinePalette_notifies_each_once [0%nat; 1%nat; 2%nat] [2%nat] (ArgDict swapped)
           unregistered w').
  vm_compute. reflexivity.
Defined.
Lemma heap_with_alpha al r w : heap (with_alpha al r w) r = resolved al (heap w r).
Proof. destruct al; simpl; [|done]. by rewrite Nat.eqb_refl. Qed.

Lemma alpha_of_resolved a c : QtGui.alpha (resolved (Some a) c) = clamp_alpha a.
Proof. reflexivity. Qed.

Lemma clamp_alpha_range a : 0 <= clamp_alpha a <= 255.
Proof. unfold clamp_alpha. lia. Qed.

Lemma clamp_alpha_id a : 0 <= a <= 255 -> clamp_alpha a = a.
Proof. unfold clamp_alpha. lia. Qed.

Lemma _updateQColor_hit self name al cd w r :
  Colors w !! name = Some r ->
  alpha_fits al = true ->
  NamedPen._updateQColor self (name, al) cd w
  = Returned tt (store_color self (resolved al (heap w r)) (with_alpha al r w)).
Proof.
  intros Hr Hal. destruct al as [a|]; cbn [alpha_fits] in Hal.
  all: unfold NamedPen._updateQColor, try_except_ValueError, subscript, getitem.
  all: unfold NamedColorManager.colors, NamedPen.QPen_setColor, qcol_setAlpha.
  all: destruct cd; run; rewrite Hr; simpl; rewrite ?Hal;
    unfold store_color; simpl; rewrite ?Nat.eqb_refl; reflexivity.
Qed.

Lemma _updateQColor_overflow self name a cd w r :
  Colors w !! name = Some r ->
  c_int a = false ->
  NamedPen._updateQColor self (name, Some a) cd w = Raised OverflowError w.
Proof.
  intros Hr Hal. unfold NamedPen._updateQColor, try_except_ValueError, subscript, getitem.
  unfold NamedColorManager.colors, NamedPen.QPen_setColor, qcol_setAlpha.
  destruct cd; run; rewrite Hr; simpl; rewrite Hal; reflexivity.
Qed.

Lemma _updateQColor_miss self name al cd w :
  Colors w !! name = None ->
  NamedPen._updateQColor self (name, al) cd w = Raised (KeyError name) w.
Proof.
  intros Hr. unfold NamedPen._updateQColor, try_except_ValueError, subscript, getitem.
  unfold NamedColorManager.colors.
  destruct cd; run; rewrite Hr; reflexivity.
Qed.

Lemma paletteChange_hit self p name al cd d w r :
  pens w !! self = Some p -> _identifier p = (name, al) ->
  contents w (match cd with ArgNone => ArgColors | _ => cd end) = Some d ->
  d !! name = Some r ->
  alpha_fits al = true ->
  NamedPen.paletteChange self cd w
  = Returned tt (store_color self (resolved al (heap w r)) (with_alpha al r w)).
Proof.
  intros Hp Hid Hd Hr Hal. destruct al as [a|]; cbn [alpha_fits] in Hal.
  all: unfold NamedPen.paletteChange, NamedPen.the_pen, try_except_ValueError, subscript,
    getitem.
  all: unfold NamedColorManager.colors, NamedPen.QPen_setColor, qcol_setAlpha.
  all: run; rewrite Hp; simpl; rewrite Hid.
  all: destruct cd; simpl in *; injection Hd as <-; rewrite Hr; simpl;
    rewrite ?Hal; unfold store_color; simpl; rewrite ?Nat.eqb_refl; reflexivity.
Qed.

Lemma paletteChange_overflow self p name a cd d w r :
  pens w !! self = Some p -> _identifier p = (name, Some a) ->
  contents w (match cd with ArgNone => ArgColors | _ => cd end) = Some d ->
  d !! name = Some r ->
  c_int a = false ->
  NamedPen.paletteChange self cd w = Raised OverflowError w.
Proof.
  intros Hp Hid Hd Hr Hal.
  unfold NamedPen.paletteChange, NamedPen.the_pen, try_except_ValueError, subscript, getitem.
  unfold NamedColorManager.colors, NamedPen.QPen_setColor, qcol_setAlpha.
  run. rewrite Hp. simpl. rewrite Hid.
  destruct cd; simpl in *; injection Hd as <-; rewrite Hr; simpl; rewrite Hal; reflexivity.
Qed.

Lemma paletteChange_miss self p name al cd d w :
  pens w !! self = Some p -> _identifier p = (name, al) ->
  contents w (match cd with ArgNone => ArgColors | _ => cd end) = Some d ->
  d !! name = None ->
  NamedPen.paletteChange self cd w = Raised (KeyError name) w.
Proof.
  intros Hp Hid Hd Hr.
  unfold NamedPen.paletteChange, NamedPen.the_pen, try_except_ValueError, subscript, getitem.
  unfold NamedColorManager.colors. run. rewrite Hp. simpl. rewrite Hid.
  destruct cd; simpl in *; injection Hd as <-; rewrite Hr; reflexivity.
Qed.

Lemma setColor_name self p name al w :
  pens w !! self = Some p ->
  NamedPen.setColor self (NamedPen.NameStr name) al w
  = NamedPen._updateQColor self (name, al) ArgNone (renamed self (name, al) w).
Proof.
  intros Hp. unfold NamedPen.setColor, NamedPen.the_pen, NamedPen.set_identifier.
  run. rewrite Hp. reflexivity.
Qed.

Lemma setAlpha_name self p al w :
  pens w !! self = Some p ->
  NamedPen.setAlpha self al w
  = NamedPen._updateQColor self (fst (_identifier p), al) ArgNone
      (renamed self (fst (_identifier p), al) w).
Proof.
  intros Hp. unfold NamedPen.setAlpha, NamedPen.the_pen, NamedPen.set_identifier.
  run. rewrite Hp. reflexivity.
Qed.

Lemma __init___unfold name width al w :
  NamedPen.__init__ name width al w
  = if c_int width
    then match NamedPen._updateQColor (next_id w) (name, al) ArgNone
                 (allocated name (stored_width width) al w) with
         | Returned _ w1 => Returned (next_id w) (set_registered (WeakSet_add (next_id w)) w1)
         | Raised e w1 => Raised e w1
         end
    else Raised OverflowError (set_next_id (S (next_id w)) w).
Proof.
  unfold NamedPen.__init__, NamedPen.QPen_setWidth, NamedColorManager.register, allocated,
    stored_width.
  unfold mbind, Py_bind, mret, Py_ret, bind, ret, raise, get, modify.
  destruct (c_int width); [|reflexivity]. cbv beta iota.
  destruct (NamedPen._updateQColor (next_id w) (name, al) ArgNone _); reflexivity.
Qed.


(** A pen built on the manager that [functions.py] sets up cannot take a
    name the default palette lacks, by construction or by [setColor]. *)
Example unknown_name_on_a_fresh_manager :
  (exists w', NamedPen.__init__ "nope" 1 None (NamedColorManager.initial_world black_heap)
              = Raised (KeyError "nope") w') /\
  (exists w', NamedPen.setColor 0%nat (NamedPen.NameStr "nope") None one_pen
              = Raised (KeyError "nope") w' /\
              qpen_color <$> pens w' !! 0%nat = Some (mkQColor 0 0 255 255)).
Proof. split; eexists; [|split]; vm_compute; reflexivity. Qed.
Lemma store_color_mutated w self r a :
  palette_entry_mutated self w
    (store_color self (resolved (Some a) (heap w r)) (with_alpha (Some a) r w)) r a.
Proof.
  unfold palette_entry_mutated. split_and!.
  - reflexivity.
  - simpl. by rewrite Nat.eqb_refl.
  - simpl. by rewrite Nat.eqb_refl.
  - simpl. rewrite Nat.eqb_refl. intros Hne Heq. apply Hne. by rewrite <- Heq.
  - intros r' Hr'. simpl. by apply Nat.eqb_neq in Hr' as ->.
  - intros other q name' Hq Hne Hr.
    assert (pens (store_color self (resolved (Some a) (heap w r)) (with_alpha (Some a) r w))
              !! other = Some q) as Hq'.
    { simpl. by rewrite lookup_alter_ne. }
    eexists. rewrite (setColor_name _ q) by done.
    rewrite (_updateQColor_hit _ _ _ _ _ r) by done. split; [done|].
    simpl. rewrite lookup_alter_eq, lookup_alter_eq, lookup_alter_ne, Hq by done.
    simpl. by rewrite Nat.eqb_refl.
Qed.

(** C10.  A pen with an opacity calls [setAlpha] on the very [QColor]
    object the palette holds for its name, in [_updateQColor] and in
    [paletteChange] alike: the object in the shared dictionary gets the
    alpha channel the toolkit makes of the opacity (the opacity brought
    into 0..255), which changes it whenever it had another one, and every
    other pen that resolves a name bound to that object afterwards gets
    that alpha.  The opacity is one the binding takes, an integer that
    fits a C [int]; for another one [setAlpha] raises and nothing is
    changed. *)
Theorem opacity_mutates_shared_palette_entry
    (w : world) (self : obj_id) (p : NamedPen) (name : string) (a : Z) (r : ref) :
  Colors w !! name = Some r ->
  pens w !! self = Some p ->
  _identifier p = (name, Some a) ->
  c_int a = true ->
  (forall color_dict, exists w',
     NamedPen._updateQColor self (name, Some a) color_dict w = Returned tt w' /\
     palette_entry_mutated self w w' r a) /\
  (exists w', NamedPen.paletteChange self ArgColors w = Returned tt w' /\
              palette_entry_mutated self w w' r a) /\
  (exists w', NamedPen.paletteChange self ArgNone w = Returned tt w' /\
              palette_entry_mutated self w w' r a).
Proof.
  intros Hr Hp Hid Ha. split_and!.
  - intros cd. eexists. split; [by apply _updateQColor_hit|].
    apply store_color_mutated.
  - eexists. split; [by apply (paletteChange_hit _ p name (Some a) _ (Colors w))|].
    apply store_color_mutated.
  - eexists. split; [by apply (paletteChange_hit _ p name (Some a) _ (Colors w))|].
    apply store_color_mutated.
Qed.

Lemma opacity_mutates_shared_palette_entry_witness :
  (forall color_dict, exists w',
     NamedPen._updateQColor 0%nat ("d", Some 50) color_dict faded = Returned tt w' /\
     palette_entry_mutated 0%nat faded w' 8%nat 50) /\
  (exists w', NamedPen.paletteChange 0%nat ArgColors faded = Returned tt w' /\
              palette_entry_mutated 0%nat faded w' 8%nat 50) /\
  (exists w', NamedPen.paletteChange 0%nat ArgNone faded = Returned tt w' /\
              palette_entry_mutated 0%nat faded w' 8%nat 50).
Proof.
  apply (opacity_mutates_shared_palette_entry faded 0%nat
           (mkNamedPen ("d", Some 50) 1 true (mkQColor 150 150 150 50))
           "d" 50 8%nat); vm_compute; reflexivity.
Defined.

(** In that store the shared object of ["d"] is opaque; the callback of
    pen 0 makes it translucent, and pen 2, which is named ["gr_fg"], reads
    the translucent colour when it resolves its name again. *)
Example opacity_reaches_another_name :
  heap faded 8%nat = mkQColor 150 150 150 255 /\
  let w' := store_of (NamedPen.paletteChange 0%nat ArgColors faded) in
  heap w' 8%nat = mkQColor 150 150 150 50 /\
  qpen_color <$> pens (store_of (NamedPen.setColor 2%nat (NamedPen.NameStr "gr_fg") None w'))
                   !! 2%nat
  = Some (mkQColor 150 150 150 50).
Proof. cbv zeta. split_and!; vm_compute; reflexivity. Qed.

(** The toolkit brings an opacity into 0..255, and the binding refuses one
    that does not fit a C [int]. *)
Example opacity_is_clamped :
  let w := NamedColorManager.initial_world black_heap in
  heap (store_of (NamedPen.__init__ "d" 1 (Some 300) w)) 8%nat = mkQColor 150 150 150 255 /\
  heap (store_of (NamedPen.__init__ "d" 1 (Some (-5)) w)) 8%nat = mkQColor 150 150 150 0 /\
  exists w', NamedPen.__init__ "d" 1 (Some 2147483648) w = Raised OverflowError w' /\
             heap w' = heap w /\ registered_objects w' = registered_objects w.
Proof.
  cbv zeta. split_and!; [vm_compute; reflexivity..|].
  eexists. split_and!; [vm_compute; reflexivity|reflexivity..].
Qed.

(** The default palette binds ["gr_fg"], ["gr_txt"] and ["p7"] to the
    object of ["d"]: a pen made as [NamedPen("d", alpha=50)] turns all of
    them translucent. *)
Example one_opacity_many_names :
  let w := NamedColorManager.initial_world black_heap in
  let w' := store_of (NamedPen.__init__ "d" 1 (Some 50) w) in
  map (fun n => heap w <$> Colors w !! n) ["d"; "gr_fg"; "gr_txt"; "p7"]
  = replicate 4 (Some (mkQColor 150 150 150 255)) /\
  map (fun n => heap w' <$> Colors w' !! n) ["d"; "gr_fg"; "gr_txt"; "p7"]
  = replicate 4 (Some (mkQColor 150 150 150 50)).
Proof. cbv zeta. split; vm_compute; reflexivity. Qed.
(** *** Is a pen's colour looked up when it is read? *)

(** C5, as stated, fails.  After [NamedPen("b")] and then
    [NamedPen("b", alpha=50)], the first pen still reads as the opaque blue
    it stored when it was built, while looking its identifier [("b", None)]
    up in the palette now gives the blue of alpha 50. *)
Lemma pen_color_is_not_looked_up_on_read :
  let w := store_of ((NamedPen.__init__ "b" 1 None;; NamedPen.__init__ "b" 1 (Some 50))
                       (NamedColorManager.initial_world black_heap)) in
  _identifier <$> pens w !! 0%nat = Some ("b", None) /\
  NamedPen.color 0%nat w = Returned (mkQColor 0 0 255 255) w /\
  resolve_now w ("b", None) = Some (mkQColor 0 0 255 50).
Proof. cbv zeta. split_and!; vm_compute; reflexivity. Qed.

(** C5, amended.  A pen keeps its identifier pair together with a colour in
    its [QPen] base.  The colour is looked up in the palette when the
    identifier is assigned ([__init__], [setColor], [setAlpha]) and again at
    each [paletteChange]; it is the value the palette's object has at that
    moment, with the opacity, brought into 0..255, as its alpha channel.
    Reading the pen returns the stored colour and does not consult the
    palette: it is the same in every store that holds the same pens.  The
    name is one of the palette, and width and opacity are integers that
    fit a C [int]; a width outside 0..32767 leaves the pen its width 1. *)
Theorem pen_color_is_stored_on_assignment
    (w : world) (name : string) (width : Z) (al : option Z) (r : ref) :
  Colors w !! name = Some r ->
  c_int width = true ->
  alpha_fits al = true ->
  let c := resolved al (heap w r) in
  (forall a, al = Some a -> QtGui.alpha c = clamp_alpha a) /\
  (exists w', NamedPen.__init__ name width al w = Returned (next_id w) w' /\
              pens w' !! next_id w
              = Some (mkNamedPen (name, al) (stored_width width) true c) /\
              next_id w ∈ registered_objects w' /\
              NamedPen.color (next_id w) w' = Returned c w') /\
  (forall self p, pens w !! self = Some p ->
     (exists w', NamedPen.setColor self (NamedPen.NameStr name) al w = Returned tt w' /\
                 pens w' !! self
                 = Some (mkNamedPen (name, al) (qpen_width p) (qpen_cosmetic p) c) /\
                 NamedPen.color self w' = Returned c w') /\
     (fst (_identifier p) = name ->
      exists w', NamedPen.setAlpha self al w = Returned tt w' /\
                 pens w' !! self
                 = Some (mkNamedPen (name, al) (qpen_width p) (qpen_cosmetic p) c) /\
                 NamedPen.color self w' = Returned c w') /\
     (_identifier p = (name, al) ->
      exists w', NamedPen.paletteChange self ArgColors w = Returned tt w' /\
                 pens w' !! self
                 = Some (mkNamedPen (name, al) (qpen_width p) (qpen_cosmetic p) c) /\
                 NamedPen.color self w' = Returned c w') /\
     (forall w', pens w' = pens w ->
                 NamedPen.color self w' = Returned (qpen_color p) w')).
Proof.
  intros Hr Hw Hal c.
  assert (Hread : forall o q w', pens w' !! o = Some q ->
                    NamedPen.color o w' = Returned (qpen_color q) w').
  { intros o q w' Ho. unfold NamedPen.color, NamedPen.the_pen. run. by rewrite Ho. }
  split_and!.
  - intros a ->. reflexivity.
  - eexists. rewrite __init___unfold, Hw.
    rewrite (_updateQColor_hit _ _ _ _ _ r) by done.
    assert (pens (set_registered (WeakSet_add (next_id w))
                    (store_color (next_id w)
                       (resolved al (heap (allocated name (stored_width width) al w) r))
                       (with_alpha al r (allocated name (stored_width width) al w))))
              !! next_id w
            = Some (mkNamedPen (name, al) (stored_width width) true c)) as Hnew.
    { unfold store_color, allocated. destruct al; simpl;
        by rewrite lookup_alter_eq, lookup_insert_eq. }
    split_and!; [done|exact Hnew| |].
    + unfold store_color, allocated, WeakSet_add. destruct al; simpl;
        apply elem_of_union_l, elem_of_singleton; reflexivity.
    + by rewrite (Hread _ _ _ Hnew).
  - intros self p Hp. split_and!.
    + eexists. rewrite (setColor_name _ p) by done.
      rewrite (_updateQColor_hit _ _ _ _ _ r) by done.
      assert (pens (store_color self (resolved al (heap (renamed self (name, al) w) r))
                      (with_alpha al r (renamed self (name, al) w))) !! self
              = Some (mkNamedPen (name, al) (qpen_width p) (qpen_cosmetic p) c)) as Hnew.
      { unfold store_color, renamed. destruct al; simpl;
          by rewrite lookup_alter_eq, lookup_alter_eq, Hp. }
      split_and!; [done|exact Hnew|]. by rewrite (Hread _ _ _ Hnew).
    + intros Hname. eexists. rewrite (setAlpha_name _ p) by done. rewrite Hname.
      rewrite (_updateQColor_hit _ _ _ _ _ r) by done.
      assert (pens (store_color self (resolved al (heap (renamed self (name, al) w) r))
                      (with_alpha al r (renamed self (name, al) w))) !! self
              = Some (mkNamedPen (name, al) (qpen_width p) (qpen_cosmetic p) c)) as Hnew.
      { unfold store_color, renamed. destruct al; simpl;
          by rewrite lookup_alter_eq, lookup_alter_eq, Hp. }
      split_and!; [done|exact Hnew|]. by rewrite (Hread _ _ _ Hnew).
    + intros Hid. eexists.
      rewrite (paletteChange_hit _ p name al _ (Colors w) _ r) by done.
      assert (pens (store_color self (resolved al (heap w r)) (with_alpha al r w)) !! self
              = Some (mkNamedPen (name, al) (qpen_width p) (qpen_cosmetic p) c)) as Hnew.
      { unfold store_color. destruct al; simpl; rewrite lookup_alter_eq, Hp; simpl;
          by rewrite Hid. }
      split_and!; [done|exact Hnew|]. by rewrite (Hread _ _ _ Hnew).
    + intros w' Hw'. apply Hread. by rewrite Hw'.
Qed.

Lemma pen_color_is_stored_on_assignment_witness :
  let w := faded in
  let c := resolved (Some 300) (heap w 8%nat) in
  (forall a, Some 300 = Some a -> QtGui.alpha c = clamp_alpha a) /\
  (exists w', NamedPen.__init__ "gr_txt" 40000 (Some 300) w = Returned (next_id w) w' /\
              pens w' !! next_id w
              = Some (mkNamedPen ("gr_txt", Some 300) (stored_width 40000) true c) /\
              next_id w ∈ registered_objects w' /\
              NamedPen.color (next_id w) w' = Returned c w') /\
  (forall self p, pens w !! self = Some p ->
     (exists w', NamedPen.setColor self (NamedPen.NameStr "gr_txt") (Some 300) w
                 = Returned tt w' /\
                 pens w' !! self
                 = Some (mkNamedPen ("gr_txt", Some 300) (qpen_width p) (qpen_cosmetic p) c) /\
                 NamedPen.color self w' = Returned c w') /\
     (fst (_identifier p) = "gr_txt" ->
      exists w', NamedPen.setAlpha self (Some 300) w = Returned tt w' /\
                 pens w' !! self
                 = Some (mkNamedPen ("gr_txt", Some 300) (qpen_width p) (qpen_cosmetic p) c) /\
                 NamedPen.color self w' = Returned c w') /\
     (_identifier p = ("gr_txt", Some 300) ->
      exists w', NamedPen.paletteChange self ArgColors w = Returned tt w' /\
                 pens w' !! self
                 = Some (mkNamedPen ("gr_txt", Some 300) (qpen_width p) (qpen_cosmetic p) c) /\
                 NamedPen.color self w' = Returned c w') /\
     (forall w', pens w' = pens w ->
                 NamedPen.color self w' = Returned (qpen_color p) w')).
Proof.
  apply (pen_color_is_stored_on_assignment faded "gr_txt" 40000 (Some 300) 8%nat);
    vm_compute; reflexivity.
Defined.

(** What the pen of that example ends up with: the width is not taken,
    and the opacity 300 is stored as alpha 255. *)
Example out_of_range_width_and_opacity :
  pens (store_of (NamedPen.__init__ "gr_txt" 40000 (Some 300) faded)) !! next_id faded
  = Some (mkNamedPen ("gr_txt", Some 300) 1 true (mkQColor 150 150 150 255)).
Proof. vm_compute. reflexivity. Qed.
Section TargetItemFacts.

Context {QPainterPath QTransform : Type}.
Variable QTransform_new : QTransform.
Variable translate : QTransform -> float -> float -> QTransform.
Variable rotate : QTransform -> float -> QTransform.
Variable map_point : QTransform -> float * float -> float * float.
Variable map_path : QTransform -> QPainterPath -> QPainterPath.
Variable atan2 : float -> float -> float.
Variable pi : float.
Variable invertQTransform : QTransform -> exn + QTransform.
Variable Point : pyval -> exn + float * float.
Variable py_eq : pyval -> pyval -> bool.
Variable TextItem__init__ : pyval -> pyval -> Py TargetLabel.label unit.
Variable QGraphicsItem_setPos : list pyval -> Py TargetLabel.label unit.

#[local] Abbreviation item := (TargetItem.item QPainterPath QTransform).
#[local] Abbreviation setPos := (TargetItem.setPos QPainterPath QTransform Point py_eq).
#[local] Abbreviation generateShape :=
  (TargetItem.generateShape QPainterPath QTransform QTransform_new translate rotate
     map_point map_path atan2 pi invertQTransform).
#[local] Abbreviation shape :=
  (TargetItem.shape QPainterPath QTransform QTransform_new translate rotate
     map_point map_path atan2 pi invertQTransform).
#[local] Abbreviation viewTransformChanged := (TargetItem.viewTransformChanged QPainterPath QTransform).

(** C7.  A position that is no tuple, list, [QPointF] or [QPoint] makes
    [setPos] raise [TypeError] and leaves the item as it was: the stored
    position is unchanged and nothing is emitted.  An offset that is no
    tuple, list, [QPoint] or [QPointF] makes [TargetLabel.__init__] raise
    [TypeError] once the base class is initialised. *)
Theorem malformed_position_or_offset_raises_TypeError
    (it : item) (l l1 : TargetLabel.label) (tgt : nat)
    (pos text offset anchor angle : pyval) :
  isinstance pos [class_tuple; class_list; class_QPointF; class_QPoint] = false ->
  isinstance offset [class_tuple; class_list; class_QPoint; class_QPointF] = false ->
  TextItem__init__ anchor angle l = Returned tt l1 ->
  setPos pos it = Raised (TypeError "") it /\
  exists l',
    TargetLabel.__init__ TextItem__init__ QGraphicsItem_setPos tgt text offset anchor angle l
    = Raised (TypeError "Offset parameter is the wrong data type") l' /\
    TargetLabel.connected l' = TargetLabel.connected l1 /\
    TargetLabel.value_changes l' = TargetLabel.value_changes l1.
Proof.
  intros Hpos Hoff Hbase. split.
  - unfold TargetItem.setPos. run.
    destruct pos; simpl in Hpos; try discriminate; reflexivity.
  - unfold TargetLabel.__init__. run. rewrite Hbase.
    destruct offset; simpl in Hoff; try discriminate; simpl; eauto.
Qed.

(** Supporting C6: [viewTransformChanged] drops the cached shape, so the
    next [shape()] runs [generateShape] against the device transform of
    that moment and caches what it returns; a further [shape()] returns the
    cached path. *)
Lemma viewTransformChanged_invalidates_shape (it : item) :
  let it' := store_of (viewTransformChanged it) in
  viewTransformChanged it = Returned tt it' /\
  TargetItem._shape _ _ it' = None /\
  forall s it'',
    generateShape it' = Returned (Some s) it'' ->
    shape it' = Returned s (TargetItem.set_shape _ _ (Some s) it'') /\
    shape (TargetItem.set_shape _ _ (Some s) it'')
    = Returned s (TargetItem.set_shape _ _ (Some s) it'').
Proof.
  intros it'. split_and!; [reflexivity..|].
  intros s it'' Hgen. split.
  - unfold TargetItem.shape. unfold mbind, Py_bind, bind, get. cbn [TargetItem._shape it' store_of].
    change (TargetItem._shape _ _ it') with (@None QPainterPath). cbv beta iota.
    rewrite Hgen. reflexivity.
  - reflexivity.
Qed.

(** C6.  With an invertible device transform [dt], whose inverse the
    toolkit computes exactly (mapping a path through the inverse and then
    through [dt] gives the path back), [generateShape] returns a path that
    [dt] maps to the target path translated to the device position of the
    item's origin and rotated by the device-space angle of the view's x
    axis.  That device-space path depends on [dt] through this position and
    this angle only: any other invertible device transform with the same
    two, whatever its zoom, gives the same one.  [viewTransformChanged]
    drops the cached shape, so that the next [shape()] computes this path
    anew and caches it, and a further [shape()] returns it from the
    cache. *)
Theorem generateShape_is_screen_space_invariant
    (it : item) (dt dti : QTransform) :
  TargetItem.deviceTransform _ _ it = Some dt ->
  invertQTransform dt = inr dti ->
  (forall p, map_path dt (map_path dti p) = p) ->
  exists s,
    generateShape it = Returned (Some s) it /\
    map_path dt s
    = placed QTransform_new translate rotate map_path pi
        (map_point dt (0, 0)%float) (x_axis_angle map_point atan2 dt)
        (TargetItem._path _ _ it) /\
    (forall (it' : item) (dt' dti' : QTransform),
       TargetItem._path _ _ it' = TargetItem._path _ _ it ->
       TargetItem.deviceTransform _ _ it' = Some dt' ->
       invertQTransform dt' = inr dti' ->
       (forall p, map_path dt' (map_path dti' p) = p) ->
       map_point dt' (0, 0)%float = map_point dt (0, 0)%float ->
       x_axis_angle map_point atan2 dt' = x_axis_angle map_point atan2 dt ->
       exists s', generateShape it' = Returned (Some s') it' /\
                  map_path dt' s' = map_path dt s) /\
    let it0 := store_of (viewTransformChanged it) in
    viewTransformChanged it = Returned tt it0 /\
    TargetItem._shape _ _ it0 = None /\
    shape it0 = Returned s (TargetItem.set_shape _ _ (Some s) it0) /\
    shape (TargetItem.set_shape _ _ (Some s) it0)
    = Returned s (TargetItem.set_shape _ _ (Some s) it0).
Proof.
  intros Hdt Hinv Hexact.
  assert (Hgen : forall (i : item) (t ti : QTransform),
            TargetItem.deviceTransform _ _ i = Some t -> invertQTransform t = inr ti ->
            generateShape i
            = Returned (Some (map_path ti
                 (placed QTransform_new translate rotate map_path pi
                    (map_point t (0, 0)%float) (x_axis_angle map_point atan2 t)
                    (TargetItem._path _ _ i)))) i).
  { intros i t ti Ht Hti. unfold TargetItem.generateShape, TargetItem.lift.
    unfold mbind, Py_bind, mret, Py_ret, bind, ret, get.
    rewrite Ht. cbv zeta. rewrite Hti. reflexivity. }
  eexists. split_and!.
  - apply (Hgen it dt dti Hdt Hinv).
  - apply Hexact.
  - intros it' dt' dti' Hpath Hdt' Hinv' Hexact' Horigin Hangle.
    eexists. split; [apply (Hgen it' dt' dti' Hdt' Hinv')|].
    rewrite Hexact', Hexact, Hpath, Horigin, Hangle. reflexivity.
  - cbv zeta. split_and!; [reflexivity..| |reflexivity].
    unfold TargetItem.shape. unfold mbind, Py_bind, bind, get.
    change (TargetItem._shape _ _ (store_of (viewTransformChanged it)))
      with (@None QPainterPath). cbv beta iota.
    rewrite (Hgen _ dt dti) by (assumption || exact Hdt). reflexivity.
Qed.

End TargetItemFacts.

Lemma generateShape_is_screen_space_invariant_witness :
  let it := shifted_item 5 in
  exists s,
    TargetItem.generateShape Z Z 0 shift_translate shift_rotate shift_point shift_path
      level_atan2 3.141592653589793%float shift_invert it = Returned (Some s) it /\
    shift_path 5 s
    = placed 0 shift_translate shift_rotate shift_path 3.141592653589793%float
        (shift_point 5 (0, 0)%float) (x_axis_angle shift_point level_atan2 5)
        (TargetItem._path _ _ it) /\
    (forall (it' : TargetItem.item Z Z) (dt' dti' : Z),
       TargetItem._path _ _ it' = TargetItem._path _ _ it ->
       TargetItem.deviceTransform _ _ it' = Some dt' ->
       shift_invert dt' = inr dti' ->
       (forall p, shift_path dt' (shift_path dti' p) = p) ->
       shift_point dt' (0, 0)%float = shift_point 5 (0, 0)%float ->
       x_axis_angle shift_point level_atan2 dt' = x_axis_angle shift_point level_atan2 5 ->
       exists s', TargetItem.generateShape Z Z 0 shift_translate shift_rotate shift_point
                    shift_path level_atan2 3.141592653589793%float shift_invert it'
                  = Returned (Some s') it' /\
                  shift_path dt' s' = shift_path 5 s) /\
    let it0 := store_of (TargetItem.viewTransformChanged Z Z it) in
    TargetItem.viewTransformChanged Z Z it = Returned tt it0 /\
    TargetItem._shape _ _ it0 = None /\
    TargetItem.shape Z Z 0 shift_translate shift_rotate shift_point shift_path
      level_atan2 3.141592653589793%float shift_invert it0
    = Returned s (TargetItem.set_shape _ _ (Some s) it0) /\
    TargetItem.shape Z Z 0 shift_translate shift_rotate shift_point shift_path
      level_atan2 3.141592653589793%float shift_invert (TargetItem.set_shape _ _ (Some s) it0)
    = Returned s (TargetItem.set_shape _ _ (Some s) it0).
Proof.
  apply (generateShape_is_screen_space_invariant 0 shift_translate shift_rotate shift_point
           shift_path level_atan2 3.141592653589793%float shift_invert (shifted_item 5) 5 (-5)).
  - reflexivity.
  - reflexivity.
  - intros p. unfold shift_path. lia.
Defined.

(** On the line: the point path at 7, seen through a view shifted by 5,
    has the shape at 7, which the view shows at the device place 12. *)
Example shape_on_the_line :
  TargetItem.generateShape Z Z 0 shift_translate shift_rotate shift_point shift_path
    level_atan2 3.141592653589793%float shift_invert (shifted_item 5)
  = Returned (Some 7) (shifted_item 5) /\
  shift_path 5 7 = 12.
Proof. split; vm_compute; reflexivity. Qed.

Lemma malformed_position_or_offset_raises_TypeError_witness :
  TargetItem.setPos unit unit Point_of_pair (fun _ _ => false) (VStr "3,4") origin_item
  = Raised (TypeError "") origin_item /\
  exists l',
    TargetLabel.__init__ no_base_init no_setPos 0%nat VNone (VInt 5) VNone VNone fresh_label
    = Raised (TypeError "Offset parameter is the wrong data type") l' /\
    TargetLabel.connected l' = TargetLabel.connected fresh_label /\
    TargetLabel.value_changes l' = TargetLabel.value_changes fresh_label.
Proof.
  apply (malformed_position_or_offset_raises_TypeError Point_of_pair (fun _ _ => false)
           no_base_init no_setPos origin_item fresh_label fresh_label 0%nat
           (VStr "3,4") VNone (VInt 5) VNone VNone); reflexivity.
Defined.

(** ** The path button *)

Lemma import_module_raises (g : gset string) :
  "QtWidgets" ∉ g ->
  PathButton.import_module g
  = Raised (NameError "name 'QtWidgets' is not defined")
           ({[ "__all__" ]} ∪ (list_to_set ["QtCore"; "QtGui"] ∪ (list_to_set ["fn"] ∪ g))).
Proof.
  intros Hg. unfold PathButton.import_module, PathButton.source. simpl.
  unfold PathButton.load_name. run.
  rewrite bool_decide_false; [reflexivity|].
  unfold PathButton.builtins. set_solver.
Qed.

(** C8.  The module cannot be imported: its [class] statement evaluates
    [QtWidgets.QPushButton], and the imports bind [fn], [QtCore] and [QtGui]
    only.  The import stops with [NameError] before the name [PathButton]
    is bound, so no button is ever built, whatever the arguments. *)
Theorem PathButton_cannot_be_constructed
    {QPainterPath Pen Brush : Type} (mkPen : pyval -> Pen) (mkBrush : pyval -> Brush)
    (default_size : float * float)
    (g : gset string) (path : option QPainterPath) (pen brush : pyval)
    (size : option (float * float)) (margin : float) :
  "QtWidgets" ∉ g ->
  exists g',
    PathButton.import_module g = Raised (NameError "name 'QtWidgets' is not defined") g' /\
    PathButton.construct QPainterPath Pen Brush mkPen mkBrush default_size
      path pen brush size margin g
    = Raised (NameError "name 'QtWidgets' is not defined") g' /\
    ("PathButton" ∈ g' <-> "PathButton" ∈ g).
Proof.
  intros Hg. eexists. split_and!.
  - by apply import_module_raises.
  - unfold PathButton.construct. unfold mbind, Py_bind, bind.
    by rewrite import_module_raises.
  - set_solver.
Qed.

Lemma PathButton_cannot_be_constructed_witness :
  exists g',
    PathButton.import_module ∅ = Raised (NameError "name 'QtWidgets' is not defined") g' /\
    PathButton.construct unit unit unit (fun _ => tt) (fun _ => tt) (30, 30)%float
      (Some tt) (VStr "default") VNone (Some (30, 30)%float) 7%float ∅
    = Raised (NameError "name 'QtWidgets' is not defined") g' /\
    ("PathButton" ∈ g' <-> "PathButton" ∈ (∅ : gset string)).
Proof.
  apply (PathButton_cannot_be_constructed (fun _ => tt) (fun _ => tt) (30, 30)%float ∅
           (Some tt) (VStr "default") VNone (Some (30, 30)%float) 7%float).
  apply not_elem_of_empty.
Defined.

(** Were the class defined, [paintEvent] would still fail on a path whose
    bounding rectangle has no width or no height (an empty path, a
    horizontal or a vertical line): the scale divides by it. *)
Lemma paintEvent_degenerate_path
    {QPainterPath Pen Brush : Type} (boundingRect : QPainterPath -> PathButton.QRectF)
    (self : PathButton.button QPainterPath Pen Brush) (p : QPainterPath) :
  PathButton.rwidth (boundingRect p) = 0%float \/
  PathButton.rheight (boundingRect p) = 0%float ->
  PathButton.paintEvent QPainterPath boundingRect Pen Brush self p
  = PathButton.ZeroDivisionError.
Proof.
  unfold PathButton.paintEvent, PathButton.truediv. intros [-> | ->].
  - reflexivity.
  - change (PrimFloat.eqb 0 0) with true. cbv iota.
    by destruct (PrimFloat.eqb _ 0).
Qed.

(** * Further properties of the palette and its pens *)

(** ** What [paletteChange] can do *)

Lemma paletteChange_cases self cd w :
  (exists e, NamedPen.paletteChange self cd w = Raised e w /\
             (pens w !! self = None \/
              exists p, pens w !! self = Some p /\
                (e = KeyError (fst (_identifier p)) \/
                 (e = OverflowError /\ alpha_fits (snd (_identifier p)) = false)))) \/
  (exists p r,
     pens w !! self = Some p /\
     NamedPen.paletteChange self cd w
     = Returned tt (store_color self (resolved (snd (_identifier p)) (heap w r))
                      (with_alpha (snd (_identifier p)) r w))).
Proof.
  destruct (pens w !! self) as [p|] eqn:Hp.
  - destruct (_identifier p) as [name al] eqn:Hid.
    assert (exists d, contents w (match cd with ArgNone => ArgColors | _ => cd end) = Some d)
      as [d Hd] by (destruct cd; simpl; eauto).
    destruct (d !! name) as [r|] eqn:Hr.
    + destruct (alpha_fits al) eqn:Hal.
      * right. exists p, r. split; [done|]. rewrite Hid. simpl.
        by apply (paletteChange_hit _ p name al cd d).
      * left. exists OverflowError. destruct al as [a|]; [|discriminate]. split.
        -- by apply (paletteChange_overflow _ p name a cd d _ r).
        -- right. exists p. rewrite Hid. split; [done|]. by right.
    + left. exists (KeyError name). split.
      * by apply (paletteChange_miss _ p name al cd d).
      * right. exists p. rewrite Hid. split; [done|]. by left.
  - left. exists (PyException "weakly-referenced object no longer exists"). split; [|by left].
    unfold NamedPen.paletteChange, NamedPen.the_pen. run. by rewrite Hp.
Qed.

Lemma store_color_identifier self c al r w o :
  _identifier <$> pens (store_color self c (with_alpha al r w)) !! o
  = _identifier <$> pens w !! o.
Proof.
  unfold store_color. destruct al; simpl.
  all: destruct (decide (self = o)) as [->|Hne];
    [rewrite lookup_alter_eq; by destruct (pens w !! o)|by rewrite lookup_alter_ne].
Qed.

(** A pen's [paletteChange], however it ends, keeps every pen's identifier,
    and keeps the palette dictionary, the registry and the trace. *)
Lemma paletteChange_keeps_identifiers self cd w o :
  _identifier <$> pens (store_of (NamedPen.paletteChange self cd w)) !! o
  = _identifier <$> pens w !! o.
Proof.
  destruct (paletteChange_cases self cd w) as [(e & -> & _)|(p & r & _ & ->)]; [done|].
  simpl. apply store_color_identifier.
Qed.

(** ** The notification loop, however it ends *)

Lemma for_each_notify_cons o l P w :
  for_each (o :: l) (notify P) w
  = match NamedPen.paletteChange o ArgColors (log (Call_paletteChange o P) w) with
    | Returned _ w1 => for_each l (notify P) w1
    | Raised e w1 => Raised e w1
    end.
Proof. reflexivity. Qed.

Lemma notify_loop_any l P w :
  let w' := store_of (for_each l (notify P) w) in
  Colors w' = Colors w /\ registered_objects w' = registered_objects w /\
  (forall o, _identifier <$> pens w' !! o = _identifier <$> pens w !! o) /\
  exists k, trace w' = trace w ++ map (fun o => Call_paletteChange o P) (take k l).
Proof.
  cbv zeta. revert w. induction l as [|o l IH]; intros w.
  - simpl. split_and!; [done..|]. exists 0%nat. by rewrite app_nil_r.
  - rewrite for_each_notify_cons.
    pose proof (paletteChange_same_palette o ArgColors (log (Call_paletteChange o P) w))
      as (HC & HR & HT).
    pose proof (paletteChange_keeps_identifiers o ArgColors (log (Call_paletteChange o P) w))
      as HI.
    destruct (NamedPen.paletteChange o ArgColors _) as [[] w1|e w1]; simpl in *.
    + destruct (IH w1) as (HC' & HR' & HI' & k & HT').
      split_and!; [congruence|congruence|intros o'; by rewrite HI', HI|].
      exists (S k). rewrite HT', HT. simpl. by rewrite <- app_assoc.
    + split_and!; [done..|]. exists 1%nat. rewrite HT. by destruct l.
Qed.

(** The loop returns when every object it visits is a live pen whose name
    the palette has and whose opacity the binding takes. *)
Lemma notify_loop_returns l P w :
  (forall o, o ∈ l -> exists p, pens w !! o = Some p /\
                                 is_Some (Colors w !! fst (_identifier p)) /\
                                 alpha_fits (snd (_identifier p)) = true) ->
  exists w', for_each l (notify P) w = Returned tt w'.
Proof.
  revert w. induction l as [|o l IH]; intros w Hall; [simpl; eauto|].
  rewrite for_each_notify_cons.
  set (w0 := log (Call_paletteChange o P) w).
  destruct (Hall o) as (p & Hp & (r & Hr) & Hal); [by left|].
  destruct (_identifier p) as [name al] eqn:Hid. simpl in Hr, Hal.
  rewrite (paletteChange_hit o p name al ArgColors (Colors w0) w0 r) by done.
  apply IH. intros o' Ho'. destruct (Hall o') as (p' & Hp' & Hr' & Hal'); [by right|].
  pose proof (store_color_identifier o (resolved al (heap w0 r)) al r w0 o') as HI.
  change (pens w0) with (pens w) in HI. rewrite Hp' in HI.
  destruct (pens (store_color _ _ _) !! o') as [p''|] eqn:Hp''; [|discriminate].
  simpl in HI. injection HI as HI. exists p''. split; [done|].
  rewrite HI. split; [by destruct al|done].
Qed.

Lemma redefinePalette_dict_unfold (d : pydict) w :
  (forall k, k ∈ odict_keys NamedColorManager.DEFAULT_COLORS -> is_Some (d !! k)) ->
  redefinePalette (ArgDict d) w
  = match for_each (WeakSet_iter (registered_objects w)) (notify d) (replaced d w) with
    | Returned _ w4 => Returned tt (log Emit_paletteHasChangedSignal w4)
    | Raised e s => Raised e s
    end.
Proof.
  intros Hall. rewrite redefinePalette_unfold_pens.
  cbn [contents]. rewrite check_keys_complete by done.
  cbv zeta. unfold NamedColorManager.update. cbn [contents].
  unfold replaced, set_Colors, log.
  cbn [Colors registered_objects heap pens next_id trace].
  rewrite (right_id_L ∅ (∪) d). reflexivity.
Qed.

Lemma pen_name_loop l P w o :
  pen_name (store_of (for_each l (notify P) w)) o = pen_name w o.
Proof.
  unfold pen_name. destruct (notify_loop_any l P w) as (_ & _ & HI & _).
  specialize (HI o).
  destruct (pens (store_of _) !! o) as [p'|], (pens w !! o) as [p|];
    simpl in *; congruence.
Qed.

Lemma pen_alpha_loop l P w o :
  pen_alpha (store_of (for_each l (notify P) w)) o = pen_alpha w o.
Proof.
  unfold pen_alpha. destruct (notify_loop_any l P w) as (_ & _ & HI & _).
  specialize (HI o).
  destruct (pens (store_of _) !! o) as [p'|], (pens w !! o) as [p|];
    simpl in *; congruence.
Qed.

(** The loop raises when some object it visits is a pen whose name the
    palette lacks, the opacities being such as the binding takes. *)
Lemma notify_loop_raises l P w :
  (forall o, o ∈ l -> is_Some (pen_name w o)) ->
  (forall o al, o ∈ l -> pen_alpha w o = Some al -> alpha_fits al = true) ->
  (exists o n, o ∈ l /\ pen_name w o = Some n /\ Colors w !! n = None) ->
  exists o n w',
    o ∈ l /\ pen_name w o = Some n /\ Colors w !! n = None /\
    for_each l (notify P) w = Raised (KeyError n) w'.
Proof.
  revert w. induction l as [|o l IH]; intros w Hlive Hfit (o1 & n1 & Ho1 & Hn1 & Hmiss).
  { by apply elem_of_nil in Ho1. }
  rewrite for_each_notify_cons.
  set (w0 := log (Call_paletteChange o P) w).
  destruct (Hlive o) as [n Hn]; [by left|].
  unfold pen_name in Hn. destruct (pens w !! o) as [p|] eqn:Hp; [|discriminate].
  simpl in Hn. injection Hn as Hn.
  destruct (_identifier p) as [name al] eqn:Hid. simpl in Hn. subst name.
  destruct (Colors w !! n) as [r|] eqn:Hr.
  - pose proof (for_each_notify_cons o [] P w) as Hone. fold w0 in Hone.
    assert (alpha_fits al = true) as Hal.
    { apply (Hfit o); [by left|]. unfold pen_alpha. rewrite Hp. simpl. by rewrite Hid. }
    rewrite (paletteChange_hit o p n al ArgColors (Colors w0) w0 r) in * by done.
    set (w1 := store_color o (resolved al (heap w0 r)) (with_alpha al r w0)) in *.
    assert (forall o', pen_name w1 o' = pen_name w o') as Hsame.
    { intros o'. pose proof (pen_name_loop [o] P w o') as Hl.
      by rewrite Hone in Hl. }
    assert (forall o', pen_alpha w1 o' = pen_alpha w o') as Hsame'.
    { intros o'. pose proof (pen_alpha_loop [o] P w o') as Hl.
      by rewrite Hone in Hl. }
    assert (Colors w1 = Colors w) as HC by (subst w1 w0; by destruct al).
    destruct (IH w1) as (o2 & n2 & w' & Ho2 & Hn2 & Hm2 & Hraise).
    + intros o' Ho'. rewrite Hsame. apply Hlive. by right.
    + intros o' al' Ho'. rewrite Hsame'. apply Hfit. by right.
    + apply elem_of_cons in Ho1 as [->|Ho1].
      * unfold pen_name in Hn1. rewrite Hp in Hn1. simpl in Hn1. rewrite Hid in Hn1.
        simpl in Hn1. injection Hn1 as <-. congruence.
      * exists o1, n1. rewrite Hsame, HC. done.
    + exists o2, n2, w'. rewrite Hsame, HC in *. split_and!; [by right|done..].
  - exists o, n, w0. split_and!; [by left| |done|].
    + unfold pen_name. rewrite Hp. simpl. by rewrite Hid.
    + by rewrite (paletteChange_miss o p n al ArgColors (Colors w0) w0).
Qed.

(** ** [redefinePalette] with a dictionary of its own *)

Lemma redefinePalette_replaces_wholesale_witness :
  Colors (store_of (redefinePalette (ArgDict swapped) two_pens)) = swapped.
Proof.
  apply (redefinePalette_replaces_wholesale swapped two_pens
           (store_of (redefinePalette (ArgDict swapped) two_pens))).
  vm_compute. reflexivity.
Defined.

(** X2.  [redefinePalette] returns, with the palette replaced, as soon as
    the dictionary has every default key and every registered object is a
    live pen whose name is a key of it and whose opacity, if it has one,
    is one the binding takes (it fits a C [int]). *)
Theorem redefinePalette_returns (d : pydict) (w : world) :
  (forall k, k ∈ odict_keys NamedColorManager.DEFAULT_COLORS -> is_Some (d !! k)) ->
  (forall o, o ∈ registered_objects w ->
     exists n, pen_name w o = Some n /\ is_Some (d !! n)) ->
  (forall o al, o ∈ registered_objects w -> pen_alpha w o = Some al -> alpha_fits al = true) ->
  exists w', redefinePalette (ArgDict d) w = Returned tt w' /\ Colors w' = d.
Proof.
  intros Hall Hpens Hfit. rewrite redefinePalette_dict_unfold by done.
  destruct (notify_loop_returns (WeakSet_iter (registered_objects w)) d (replaced d w))
    as [w4 Hloop].
  { intros o Ho. apply elem_of_elements in Ho.
    destruct (Hpens o Ho) as (n & Hn & Hd). unfold pen_name in Hn.
    pose proof (Hfit o) as Hfit'. unfold pen_alpha in Hfit'.
    change (pens (replaced d w)) with (pens w).
    destruct (pens w !! o) as [p|]; [|discriminate].
    exists p. split; [done|]. simpl in Hn. injection Hn as ->.
    split; [done|]. by apply Hfit'. }
  rewrite Hloop. eexists. split; [done|].
  destruct (notify_loop_any (WeakSet_iter (registered_objects w)) d (replaced d w))
    as (HC & _). rewrite Hloop in HC. exact HC.
Qed.

Lemma redefinePalette_returns_witness :
  exists w', redefinePalette (ArgDict swapped) two_pens = Returned tt w' /\
             Colors w' = swapped.
Proof.
  apply (redefinePalette_returns swapped two_pens).
  - apply (Forall_forall (fun k => is_Some (swapped !! k))).
    apply (bool_decide_unpack _). vm_compute. exact I.
  - intros o Ho. apply elem_of_elements, list_elem_of_In in Ho. vm_compute in Ho.
    destruct Ho as [<-|[<-|[]]]; vm_compute; eexists; (split; [reflexivity|by eexists]).
  - intros o al Ho. apply elem_of_elements, list_elem_of_In in Ho. vm_compute in Ho.
    destruct Ho as [<-|[<-|[]]]; intros Hal; vm_compute in Hal; injection Hal as <-;
      reflexivity.
Defined.

(** X3.  If the dictionary has every default key but lacks the name of a
    registered pen, [redefinePalette] is not atomic: it raises the
    [KeyError] of such a pen's name out of the notification loop, with the
    palette already replaced and [paletteHasChangedSignal] not emitted.
    The registered pens' opacities are such as the binding takes. *)
Theorem redefinePalette_fails_in_callback (d : pydict) (w : world) :
  (forall k, k ∈ odict_keys NamedColorManager.DEFAULT_COLORS -> is_Some (d !! k)) ->
  (forall o, o ∈ registered_objects w -> is_Some (pen_name w o)) ->
  (forall o al, o ∈ registered_objects w -> pen_alpha w o = Some al -> alpha_fits al = true) ->
  (exists o n, o ∈ registered_objects w /\ pen_name w o = Some n /\ d !! n = None) ->
  exists o n w',
    o ∈ registered_objects w /\ pen_name w o = Some n /\ d !! n = None /\
    redefinePalette (ArgDict d) w = Raised (KeyError n) w' /\
    Colors w' = d /\
    Emit_paletteHasChangedSignal ∉ new_events w w'.
Proof.
  intros Hall Hlive Hfit (o1 & n1 & Ho1 & Hn1 & Hmiss).
  rewrite redefinePalette_dict_unfold by done.
  destruct (notify_loop_raises (WeakSet_iter (registered_objects w)) d (replaced d w))
    as (o & n & w' & Ho & Hn & Hm & Hraise).
  { intros o Ho. apply elem_of_elements in Ho. by apply Hlive. }
  { intros o al Ho. apply elem_of_elements in Ho. by apply Hfit. }
  { exists o1, n1. split_and!; [by apply elem_of_elements|done..]. }
  exists o, n, w'. apply elem_of_elements in Ho.
  destruct (notify_loop_any (WeakSet_iter (registered_objects w)) d (replaced d w))
    as (HC & _ & _ & k & HT).
  rewrite Hraise in *. simpl in HC, HT. split_and!; [done..|].
  unfold new_events. rewrite HT. simpl. rewrite <- app_assoc, drop_app_length.
  intros [Hin|Hin]%elem_of_app.
  - apply list_elem_of_singleton in Hin. discriminate.
  - apply list_elem_of_fmap in Hin as (? & ? & _). discriminate.
Qed.

(** Pen 0 is made as [NamedPen("mine")] while the palette has the extra key
    ["mine"]; the default palette, which lacks it, is then installed. *)
Lemma redefinePalette_fails_in_callback_witness :
  let w := store_of ((NamedPen.__init__ "mine" 1 None)
                       (set_Colors <["mine" := 0%nat]>
                          (NamedColorManager.initial_world black_heap))) in
  let d := Colors (NamedColorManager.initial_world black_heap) in
  exists o n w',
    o ∈ registered_objects w /\ pen_name w o = Some n /\ d !! n = None /\
    redefinePalette (ArgDict d) w = Raised (KeyError n) w' /\
    Colors w' = d /\
    Emit_paletteHasChangedSignal ∉ new_events w w'.
Proof.
  intros w d. apply (redefinePalette_fails_in_callback d w).
  - apply (Forall_forall (fun k => is_Some (d !! k))).
    apply (bool_decide_unpack _). vm_compute. exact I.
  - intros o Ho. apply elem_of_elements, list_elem_of_In in Ho. vm_compute in Ho.
    destruct Ho as [<-|[]]. vm_compute. by eexists.
  - intros o al Ho. apply elem_of_elements, list_elem_of_In in Ho. vm_compute in Ho.
    destruct Ho as [<-|[]]. intros Hal. vm_compute in Hal. injection Hal as <-.
    reflexivity.
  - exists 0%nat, "mine". split_and!; [|vm_compute; reflexivity..].
    apply elem_of_elements. vm_compute. left.
Defined.

(** What [redefinePalette] never touches. *)
Lemma redefinePalette_frame (color_dic : dict_arg) (w : world) :
  let w' := store_of (redefinePalette color_dic w) in
  (forall o, pen_name w' o = pen_name w o) /\
  (forall o, pen_alpha w' o = pen_alpha w o) /\
  registered_objects w' = registered_objects w /\
  next_id w' = next_id w.
Proof.
  cbv zeta.
  assert (forall w1 w2 : world,
            (forall o, _identifier <$> pens w2 !! o = _identifier <$> pens w1 !! o) ->
            (forall o, pen_name w2 o = pen_name w1 o) /\
            (forall o, pen_alpha w2 o = pen_alpha w1 o)) as Hid.
  { intros w1 w2 H. split; intros o; specialize (H o); unfold pen_name, pen_alpha;
      destruct (pens w2 !! o), (pens w1 !! o); simpl in *; congruence. }
  assert (forall l P w0, next_id (store_of (for_each l (notify P) w0)) = next_id w0) as Hnext.
  { induction l as [|o l IH]; intros P w0; [done|].
    rewrite for_each_notify_cons.
    destruct (paletteChange_cases o ArgColors (log (Call_paletteChange o P) w0))
      as [(e & -> & _)|(p & r & _ & ->)]; [done|].
    rewrite IH. by destruct (snd (_identifier p)). }
  rewrite redefinePalette_unfold_pens.
  destruct (contents w color_dic) as [d|] eqn:Hd.
  - destruct (NamedColorManager.check_keys _ d w) as [[] w1|e w1] eqn:Hck.
    + apply check_keys_returned in Hck as [-> _]. cbv zeta.
      unfold NamedColorManager.update.
      assert (contents (set_Colors (fun _ => ∅) (log (Print confirmed_msg) w)) color_dic
              = Some (match color_dic with ArgColors => ∅ | _ => d end)) as ->.
      { destruct color_dic; simpl in *; congruence. }
      set (w3 := set_Colors _ (set_Colors _ _)).
      pose proof (notify_loop_any (WeakSet_iter (registered_objects w3)) (Colors w3) w3)
        as (_ & HR & HI & _).
      pose proof (Hnext (WeakSet_iter (registered_objects w3)) (Colors w3) w3) as HN.
      change (fun obj => modify (log (Call_paletteChange obj (Colors w3)));;
                         NamedPen.paletteChange obj ArgColors)
        with (notify (Colors w3)).
      destruct (for_each _ (notify (Colors w3)) w3) as [[] w4|e w4];
        cbn [store_of] in *; destruct (Hid w w4 HI) as [? ?];
        split_and!; assumption.
    + assert (w1 = w) as ->.
      { clear -Hck. revert Hck.
        induction (odict_keys NamedColorManager.DEFAULT_COLORS) as [|k ks IH]; simpl.
        - discriminate.
        - case_bool_decide; [done|]. by intros [= _ <-]. }
      cbn [store_of]. split_and!; intros; reflexivity.
  - destruct color_dic; try discriminate. cbn [store_of NamedColorManager.update contents].
    split_and!; intros; reflexivity.
Qed.

(** X4.  However [redefinePalette] ends, it keeps the identifier (name and
    opacity) of every pen, the set of registered objects and the identity
    counter: only colours, the palette and the trace can change. *)
Theorem redefinePalette_keeps_identifiers (color_dic : dict_arg) (w : world) :
  let w' := store_of (redefinePalette color_dic w) in
  (forall o, pen_name w' o = pen_name w o) /\
  (forall o, pen_alpha w' o = pen_alpha w o) /\
  registered_objects w' = registered_objects w /\
  next_id w' = next_id w.
Proof. apply redefinePalette_frame. Qed.

(** ** Repainting *)

Lemma repaint_loop l P w :
  NoDup l ->
  (forall o, o ∈ l -> exists p r, pens w !! o = Some p /\ snd (_identifier p) = None /\
                                  Colors w !! fst (_identifier p) = Some r) ->
  exists w', for_each l (notify P) w = Returned tt w' /\
    heap w' = heap w /\
    (forall o, o ∈ l -> exists p r,
        pens w !! o = Some p /\ Colors w !! fst (_identifier p) = Some r /\
        pens w' !! o
        = Some (mkNamedPen (_identifier p) (qpen_width p) (qpen_cosmetic p) (heap w r))) /\
    (forall o, o ∉ l -> pens w' !! o = pens w !! o).
Proof.
  revert w. induction l as [|o l IH]; intros w Hnd Hall.
  { exists w. split_and!; [done..| |done]. intros o Ho. by apply elem_of_nil in Ho. }
  apply NoDup_cons in Hnd as [Hnotin Hnd].
  rewrite for_each_notify_cons. set (w0 := log (Call_paletteChange o P) w).
  destruct (Hall o) as (p & r & Hp & Hal & Hr); [by left|].
  destruct (_identifier p) as [name al] eqn:Hid. simpl in Hal, Hr. subst al.
  rewrite (paletteChange_hit o p name None ArgColors (Colors w0) w0 r) by done.
  simpl. set (w1 := store_color o (heap w r) w0).
  destruct (IH w1 Hnd) as (w' & Hloop & Hheap & Hin & Hout).
  { intros o' Ho'. destruct (Hall o') as (p' & r' & Hp' & Hal' & Hr'); [by right|].
    exists p', r'. split_and!; [|done..].
    subst w1 w0. simpl. rewrite lookup_alter_ne; [done|]. intros ->. done. }
  exists w'. split_and!; [done|by rewrite Hheap| |].
  - intros o' [->|Ho']%elem_of_cons.
    + exists p, r. rewrite Hid. split_and!; [done..|].
      rewrite Hout by done. subst w1 w0. simpl.
      rewrite lookup_alter_eq, Hp. simpl. by rewrite ?Hid.
    + destruct (Hin o' Ho') as (p' & r' & Hp' & Hr' & Hpen).
      assert (o ≠ o') as Hne by (intros ->; done).
      subst w1 w0. simpl in Hp'. rewrite lookup_alter_ne in Hp' by done.
      exists p', r'. split_and!; done.
  - intros o' [Hne Ho']%not_elem_of_cons. rewrite Hout by done.
    subst w1 w0. simpl. by rewrite lookup_alter_ne.
Qed.

(** X5.  When no registered pen has an opacity, a palette change repaints
    them all: [redefinePalette] returns, no [QColor] object is modified, and
    every registered pen then holds the colour the new dictionary gives for
    its name, with its identifier, width and cosmetic flag as before. *)
Theorem redefinePalette_repaints_opaque_pens (d : pydict) (w : world) :
  (forall k, k ∈ odict_keys NamedColorManager.DEFAULT_COLORS -> is_Some (d !! k)) ->
  (forall o, o ∈ registered_objects w ->
     exists p r, pens w !! o = Some p /\ snd (_identifier p) = None /\
                 d !! fst (_identifier p) = Some r) ->
  exists w', redefinePalette (ArgDict d) w = Returned tt w' /\
    heap w' = heap w /\
    forall o, o ∈ registered_objects w -> exists p r,
      pens w !! o = Some p /\ d !! fst (_identifier p) = Some r /\
      pens w' !! o
      = Some (mkNamedPen (_identifier p) (qpen_width p) (qpen_cosmetic p) (heap w r)).
Proof.
  intros Hall Hpens. rewrite redefinePalette_dict_unfold by done.
  destruct (repaint_loop (WeakSet_iter (registered_objects w)) d (replaced d w))
    as (w4 & -> & Hheap & Hin & _).
  { apply NoDup_elements. }
  { intros o Ho. apply elem_of_elements in Ho. by apply Hpens. }
  eexists. split_and!; [done|done|].
  intros o Ho. apply elem_of_elements in Ho. by apply Hin.
Qed.

Lemma redefinePalette_repaints_opaque_pens_witness :
  let w := store_of ((NamedPen.__init__ "b" 1 None;; NamedPen.__init__ "w" 3 None)
                       (NamedColorManager.initial_world black_heap)) in
  exists w', redefinePalette (ArgDict swapped) w = Returned tt w' /\
    heap w' = heap w /\
    forall o, o ∈ registered_objects w -> exists p r,
      pens w !! o = Some p /\ swapped !! fst (_identifier p) = Some r /\
      pens w' !! o
      = Some (mkNamedPen (_identifier p) (qpen_width p) (qpen_cosmetic p) (heap w r)).
Proof.
  intros w. apply (redefinePalette_repaints_opaque_pens swapped w).
  - apply (Forall_forall (fun k => is_Some (swapped !! k))).
    apply (bool_decide_unpack _). vm_compute. exact I.
  - intros o Ho. apply elem_of_elements, list_elem_of_In in Ho. vm_compute in Ho.
    destruct Ho as [<-|[<-|[]]]; vm_compute; eexists _, _; split_and!; reflexivity.
Defined.

(** ** The registry *)

(** X6.  [register] has set semantics: registering an object twice is
    registering it once, the order of two registrations does not matter,
    and nothing but the registry changes. *)
Theorem register_is_idempotent_and_commutes (a b : obj_id) (w : world) :
  (NamedColorManager.register a;; NamedColorManager.register a) w
  = NamedColorManager.register a w /\
  (NamedColorManager.register a;; NamedColorManager.register b) w
  = (NamedColorManager.register b;; NamedColorManager.register a) w /\
  exists w', NamedColorManager.register a w = Returned tt w' /\
             a ∈ registered_objects w' /\
             registered_objects w ⊆ registered_objects w' /\
             Colors w' = Colors w /\ pens w' = pens w /\ trace w' = trace w.
Proof.
  unfold NamedColorManager.register, WeakSet_add.
  unfold mbind, Py_bind, bind, modify, set_registered.
  cbn [registered_objects heap Colors pens next_id trace]. split_and!.
  - do 2 f_equal. set_solver.
  - do 2 f_equal. set_solver.
  - eexists. split; [reflexivity|]. cbn. split_and!; [set_solver|set_solver|done..].
Qed.

(** X7.  A pen the collector has reclaimed is no longer notified: a
    palette change that returns has called [paletteChange] on it with no
    dictionary whatever. *)
Theorem collected_pen_is_not_notified
    (o : obj_id) (color_dic : dict_arg) (w w' : world) (P : pydict) :
  redefinePalette color_dic (collect o w) = Returned tt w' ->
  (Call_paletteChange o P ∉ new_events (collect o w) w') /\
  pens w' !! o = None.
Proof.
  intros H.
  pose proof (redefinePalette_frame color_dic (collect o w)) as (Hn & _).
  rewrite H in Hn. cbn [store_of] in Hn.
  apply redefinePalette_returned in H as (d & w3 & _ & _ & _ & _ & HT). split.
  - unfold new_events. rewrite HT, drop_app_length.
    intros [Hin|[Hin|Hin]%elem_of_app]%elem_of_app.
    + apply list_elem_of_singleton in Hin. discriminate.
    + apply list_elem_of_fmap in Hin as (o' & Heq & Ho'). injection Heq as <- _.
      apply elem_of_elements in Ho'. unfold collect, WeakSet_discard in Ho'.
      cbn in Ho'. set_solver.
    + apply list_elem_of_singleton in Hin. discriminate.
  - specialize (Hn o). unfold pen_name, collect in Hn. cbn in Hn.
    rewrite lookup_delete_eq in Hn. by destruct (pens w' !! o).
Qed.

Lemma collected_pen_is_not_notified_witness :
  let w' := store_of (redefinePalette (ArgDict swapped) (collect 0%nat two_pens)) in
  (Call_paletteChange 0%nat swapped ∉ new_events (collect 0%nat two_pens) w') /\
  pens w' !! 0%nat = None.
Proof.
  intros w'.
  apply (collected_pen_is_not_notified 0%nat (ArgDict swapped) two_pens w' swapped).
  vm_compute. reflexivity.
Defined.

(** ** Initialisation *)

Lemma odict_get_None (l : odict) k : k ∉ map fst l -> odict_get l k = None.
Proof.
  induction l as [|[k0 v0] l IH]; [done|]. simpl.
  intros [Hne Hk]%not_elem_of_cons.
  destruct (String.eqb_spec k0 k) as [->|_]; [done|auto].
Qed.

(** [dict.update] with a dictionary that has no key twice: its entries win,
    the other entries stay. *)
Lemma update_odict_lookup (l : odict) (m : pydict) k :
  NoDup (map fst l) ->
  NamedColorManager.update_odict l m !! k
  = match odict_get l k with
    | Some v => Some v
    | None => m !! k
    end.
Proof.
  unfold NamedColorManager.update_odict.
  revert m. induction l as [|[k0 v0] l IH]; intros m Hnd; [done|].
  apply NoDup_cons in Hnd as [Hk0 Hnd]. cbn [fold_left odict_get fst snd].
  rewrite IH by done.
  destruct (String.eqb_spec k0 k) as [->|Hne].
  - rewrite odict_get_None by done. apply lookup_insert_eq.
  - destruct (odict_get l k); [done|]. by apply lookup_insert_ne.
Qed.

Lemma DEFAULT_COLORS_keys_NoDup : NoDup (map fst NamedColorManager.DEFAULT_COLORS).
Proof. apply (bool_decide_unpack _). vm_compute. exact I. Qed.

(** X8.  [NamedColorManager.__init__] starts from scratch whatever
    [functions.Colors] held and whoever was registered: afterwards a name
    resolves exactly as [DEFAULT_COLORS] resolves it, and the registry is
    empty.  Pens, colour objects and the trace are not touched. *)
Theorem manager_init_resets (w : world) (k : string) :
  let w' := store_of (NamedColorManager.__init__ w) in
  NamedColorManager.__init__ w = Returned tt w' /\
  Colors w' !! k = odict_get NamedColorManager.DEFAULT_COLORS k /\
  registered_objects w' = ∅ /\
  pens w' = pens w /\ heap w' = heap w /\ trace w' = trace w.
Proof.
  unfold NamedColorManager.__init__. unfold mbind, Py_bind, bind, modify.
  cbn [store_of]. split_and!; try reflexivity.
  unfold set_registered, set_Colors. cbn [Colors].
  rewrite update_odict_lookup by apply DEFAULT_COLORS_keys_NoDup.
  by destruct (odict_get NamedColorManager.DEFAULT_COLORS k).
Qed.

(** ** More on named pens *)

(** X9.  [_updateQColor] looks the name up in [functions.Colors] and
    nowhere else: the dictionary it is handed makes no difference.  It
    raises the [KeyError] of a name the palette lacks, or the
    [OverflowError] of an opacity that does not fit a C [int], leaving the
    store as it was, and returns otherwise, the pen then holding the
    palette's colour with the opacity, brought into 0..255, as its alpha
    channel; the [ValueError] of its [except] clause is never raised. *)
Theorem _updateQColor_reads_only_the_palette
    (self : obj_id) (name : string) (al : option Z) (color_dict : dict_arg) (w : world) :
  NamedPen._updateQColor self (name, al) color_dict w
  = NamedPen._updateQColor self (name, al) ArgNone w /\
  match Colors w !! name with
  | None => NamedPen._updateQColor self (name, al) color_dict w = Raised (KeyError name) w
  | Some r =>
      if alpha_fits al
      then NamedPen._updateQColor self (name, al) color_dict w
           = Returned tt (store_color self (resolved al (heap w r)) (with_alpha al r w)) /\
           forall a, al = Some a ->
             heap (with_alpha al r w) r = resolved al (heap w r) /\
             QtGui.alpha (resolved al (heap w r)) = clamp_alpha a /\
             0 <= clamp_alpha a <= 255
      else NamedPen._updateQColor self (name, al) color_dict w = Raised OverflowError w
  end.
Proof.
  destruct (Colors w !! name) as [r|] eqn:Hr.
  - destruct (alpha_fits al) eqn:Hal.
    + rewrite !(_updateQColor_hit _ _ _ _ _ r) by done. split_and!; [done..|].
      intros a ->. split_and!; [apply heap_with_alpha|reflexivity|apply clamp_alpha_range..].
    + destruct al as [a|]; [|discriminate].
      rewrite !(_updateQColor_overflow _ _ _ _ _ r) by done. done.
  - rewrite !_updateQColor_miss by done. done.
Qed.

(** X10.  [paletteChange] resolves the pen's name in the dictionary it is
    handed, which need not be the palette: with a name that the dictionary
    has, and an opacity the binding takes, the pen takes that entry's
    colour, with the opacity brought into 0..255 as its alpha channel, even
    if [functions.Colors] lacks the name; the palette dictionary itself is
    not changed. *)
Theorem paletteChange_uses_the_given_dictionary
    (self : obj_id) (p : NamedPen) (name : string) (al : option Z)
    (d : pydict) (r : ref) (w : world) :
  pens w !! self = Some p ->
  _identifier p = (name, al) ->
  d !! name = Some r ->
  alpha_fits al = true ->
  exists w', NamedPen.paletteChange self (ArgDict d) w = Returned tt w' /\
    pens w' !! self
    = Some (mkNamedPen (name, al) (qpen_width p) (qpen_cosmetic p) (resolved al (heap w r))) /\
    (forall a, al = Some a -> QtGui.alpha (resolved al (heap w r)) = clamp_alpha a) /\
    Colors w' = Colors w /\
    registered_objects w' = registered_objects w.
Proof.
  intros Hp Hid Hr Hal. eexists.
  rewrite (paletteChange_hit self p name al (ArgDict d) d w r) by done.
  split; [done|]. unfold store_color. destruct al; cbn.
  all: rewrite lookup_alter_eq, Hp; cbn; rewrite Hid; split_and!; try done.
  all: by intros ? [= <-].
Qed.

Lemma paletteChange_uses_the_given_dictionary_witness :
  exists w', NamedPen.paletteChange 0%nat (ArgDict {[ "d" := 5%nat ]}) faded
             = Returned tt w' /\
    pens w' !! 0%nat
    = Some (mkNamedPen ("d", Some 50) 1 true (resolved (Some 50) (heap faded 5%nat))) /\
    (forall a, Some 50 = Some a ->
       QtGui.alpha (resolved (Some 50) (heap faded 5%nat)) = clamp_alpha a) /\
    Colors w' = Colors faded /\
    registered_objects w' = registered_objects faded.
Proof.
  apply (paletteChange_uses_the_given_dictionary 0%nat
           (mkNamedPen ("d", Some 50) 1 true (mkQColor 150 150 150 50)) "d" (Some 50)
           {[ "d" := 5%nat ]} 5%nat faded); vm_compute; reflexivity.
Defined.

Lemma setColor_unfold self p arg al w :
  pens w !! self = Some p ->
  NamedPen.setColor self arg al w
  = let i := match arg with
             | NamedPen.NameNone => (fst (_identifier p), al)
             | NamedPen.NameQColor c =>
                 (fst (_identifier p),
                  match al with None => Some (QtGui.alpha c) | Some a => Some a end)
             | NamedPen.NameStr n => (n, al)
             end in
    NamedPen._updateQColor self i ArgNone (renamed self i w).
Proof.
  intros Hp. unfold NamedPen.setColor, NamedPen.the_pen, NamedPen.set_identifier.
  unfold mbind, Py_bind, bind, modify. rewrite Hp.
  destruct arg as [|c|n]; [reflexivity| |reflexivity]. by destruct al.
Qed.

Lemma renamed_then_colored self p i r w :
  pens w !! self = Some p ->
  pens (store_color self (resolved (snd i) (heap (renamed self i w) r))
          (with_alpha (snd i) r (renamed self i w))) !! self
  = Some (mkNamedPen i (qpen_width p) (qpen_cosmetic p) (resolved (snd i) (heap w r))).
Proof.
  intros Hp. unfold store_color, renamed. destruct (snd i); cbn.
  all: by rewrite !lookup_alter_eq, Hp.
Qed.

(** X11.  [setColor] without a name keeps the pen's name.  Called with
    nothing but an opacity it sets that opacity ([None] when left out, which
    drops the pen's opacity); called with a [QColor] it takes the opacity
    from the [QColor] unless one is given, and ignores the colour itself.
    The alpha channel the pen gets is the opacity brought into 0..255.  An
    opacity that is given is one the binding takes, and the [QColor] has
    its alpha channel in 0..255, as every [QColor] of the toolkit has. *)
Theorem setColor_without_a_name_keeps_it
    (self : obj_id) (p : NamedPen) (r : ref) (c : QColor) (al : option Z) (w : world) :
  pens w !! self = Some p ->
  Colors w !! fst (_identifier p) = Some r ->
  alpha_fits al = true ->
  0 <= QtGui.alpha c <= 255 ->
  let name := fst (_identifier p) in
  (exists w', NamedPen.setColor self NamedPen.NameNone al w = Returned tt w' /\
     pens w' !! self
     = Some (mkNamedPen (name, al) (qpen_width p) (qpen_cosmetic p)
               (resolved al (heap w r)))) /\
  (exists w', NamedPen.setColor self (NamedPen.NameQColor c) al w = Returned tt w' /\
     pens w' !! self
     = Some (mkNamedPen (name, Some (default (QtGui.alpha c) al))
               (qpen_width p) (qpen_cosmetic p)
               (QColor_setAlpha (default (QtGui.alpha c) al) (heap w r))) /\
     QtGui.alpha (QColor_setAlpha (default (QtGui.alpha c) al) (heap w r))
     = clamp_alpha (default (QtGui.alpha c) al)).
Proof.
  intros Hp Hr Hal Hc name. split.
  - eexists. rewrite (setColor_unfold _ p) by done. cbv zeta.
    rewrite (_updateQColor_hit _ _ _ _ _ r) by done. split; [done|].
    by apply (renamed_then_colored self p (name, al)).
  - eexists. rewrite (setColor_unfold _ p) by done. cbv zeta.
    assert (alpha_fits (match al with None => Some (QtGui.alpha c) | Some a => Some a end)
            = true) as Hal'.
    { destruct al; [done|]. cbn. unfold c_int. lia. }
    rewrite (_updateQColor_hit _ _ _ _ _ r) by done. split; [done|].
    split; [|reflexivity].
    destruct al as [a|]; cbn [default].
    + by apply (renamed_then_colored self p (name, Some a)).
    + by apply (renamed_then_colored self p (name, Some (QtGui.alpha c))).
Qed.

Lemma setColor_without_a_name_keeps_it_witness :
  let name := "d" in
  (exists w', NamedPen.setColor 1%nat NamedPen.NameNone (Some 300) translucent
              = Returned tt w' /\
     pens w' !! 1%nat
     = Some (mkNamedPen (name, Some 300) 1 true
               (resolved (Some 300) (heap translucent 8%nat)))) /\
  (exists w', NamedPen.setColor 1%nat (NamedPen.NameQColor (mkQColor 9 9 9 77)) (Some 300)
                translucent
              = Returned tt w' /\
     pens w' !! 1%nat
     = Some (mkNamedPen (name, Some (default 77 (Some 300))) 1 true
               (QColor_setAlpha (default 77 (Some 300)) (heap translucent 8%nat))) /\
     QtGui.alpha (QColor_setAlpha (default 77 (Some 300)) (heap translucent 8%nat))
     = clamp_alpha (default 77 (Some 300))).
Proof.
  apply (setColor_without_a_name_keeps_it 1%nat
           (mkNamedPen ("d", Some 50) 1 true (mkQColor 150 150 150 50))
           8%nat (mkQColor 9 9 9 77) (Some 300) translucent); vm_compute; try reflexivity.
  split; discriminate.
Defined.

Lemma setAlpha_unfold self p al w :
  pens w !! self = Some p ->
  NamedPen.setAlpha self al w
  = NamedPen._updateQColor self (fst (_identifier p), al) ArgNone
      (renamed self (fst (_identifier p), al) w).
Proof.
  intros Hp. unfold NamedPen.setAlpha, NamedPen.the_pen, NamedPen.set_identifier.
  unfold mbind, Py_bind, bind, modify. by rewrite Hp.
Qed.

(** X12.  An opacity, once applied, outlives the pen's own opacity: after
    [setAlpha(a)], with [a] an integer the binding takes, the call
    [setAlpha(None)] leaves the pen with the identifier [(name, None)] and
    yet with a colour whose alpha channel is [a] brought into 0..255,
    because the first call has overwritten the palette's object and the
    second reads it back. *)
Theorem opacity_outlives_setAlpha_None
    (self : obj_id) (p : NamedPen) (r : ref) (a : Z) (w : world) :
  pens w !! self = Some p ->
  Colors w !! fst (_identifier p) = Some r ->
  c_int a = true ->
  exists w1 w2,
    NamedPen.setAlpha self (Some a) w = Returned tt w1 /\
    NamedPen.setAlpha self None w1 = Returned tt w2 /\
    pens w2 !! self
    = Some (mkNamedPen (fst (_identifier p), None) (qpen_width p) (qpen_cosmetic p)
              (QColor_setAlpha a (heap w r))) /\
    heap w2 r = QColor_setAlpha a (heap w r) /\
    QtGui.alpha (heap w2 r) = clamp_alpha a.
Proof.
  intros Hp Hr Ha. set (name := fst (_identifier p)) in *.
  eexists _, _. rewrite (setAlpha_unfold _ p) by done. fold name.
  rewrite (_updateQColor_hit _ _ _ _ _ r) by done.
  set (w1 := store_color self _ _).
  assert (pens w1 !! self
          = Some (mkNamedPen (name, Some a) (qpen_width p) (qpen_cosmetic p)
                    (QColor_setAlpha a (heap w r)))) as Hp1.
  { by apply (renamed_then_colored self p (name, Some a)). }
  assert (heap w1 r = QColor_setAlpha a (heap w r)) as Hh1.
  { subst w1. cbn. by rewrite Nat.eqb_refl. }
  split; [done|]. rewrite (setAlpha_unfold _ _ _ _ Hp1). cbn [_identifier fst].
  rewrite (_updateQColor_hit _ _ _ _ _ r) by done. split; [done|].
  pose proof (renamed_then_colored self _ (name, None) r w1 Hp1) as H2.
  cbn [snd resolved with_alpha qpen_width qpen_cosmetic] in H2. rewrite Hh1 in H2.
  split; [exact H2|]. split; [exact Hh1|].
  transitivity (QtGui.alpha (heap w1 r)); [reflexivity|].
  rewrite Hh1. reflexivity.
Qed.

Lemma opacity_outlives_setAlpha_None_witness :
  exists w1 w2,
    NamedPen.setAlpha 0%nat (Some (-5)) translucent = Returned tt w1 /\
    NamedPen.setAlpha 0%nat None w1 = Returned tt w2 /\
    pens w2 !! 0%nat
    = Some (mkNamedPen ("d", None) 1 true (QColor_setAlpha (-5) (heap translucent 8%nat))) /\
    heap w2 8%nat = QColor_setAlpha (-5) (heap translucent 8%nat) /\
    QtGui.alpha (heap w2 8%nat) = clamp_alpha (-5).
Proof.
  apply (opacity_outlives_setAlpha_None 0%nat
           (mkNamedPen ("d", None) 1 true (mkQColor 150 150 150 255)) 8%nat (-5) translucent);
    vm_compute; reflexivity.
Defined.

(** X13.  [__eq__] compares identifiers only, [__hash__] is the object's
    identity: two distinct pens of the same name and opacity are equal,
    whatever their widths and colours, and hash differently. *)
Theorem equal_pens_hash_apart (self other : obj_id) (p q : NamedPen) :
  self ≠ other ->
  _identifier p = _identifier q ->
  NamedPen.__eq__ p q = true /\
  NamedPen.__ne__ p q = false /\
  NamedPen.__hash__ self ≠ NamedPen.__hash__ other.
Proof.
  intros Hne Hid. unfold NamedPen.__ne__, NamedPen.__eq__, NamedPen.__hash__.
  rewrite bool_decide_true by done. done.
Qed.

Lemma equal_pens_hash_apart_witness :
  NamedPen.__eq__ (mkNamedPen ("b", None) 1 true (mkQColor 0 0 255 255))
                  (mkNamedPen ("b", None) 5 true (mkQColor 0 0 255 50)) = true /\
  NamedPen.__ne__ (mkNamedPen ("b", None) 1 true (mkQColor 0 0 255 255))
                  (mkNamedPen ("b", None) 5 true (mkQColor 0 0 255 50)) = false /\
  NamedPen.__hash__ 0%nat ≠ NamedPen.__hash__ 1%nat.
Proof.
  apply (equal_pens_hash_apart 0%nat 1%nat
           (mkNamedPen ("b", None) 1 true (mkQColor 0 0 255 255))
           (mkNamedPen ("b", None) 5 true (mkQColor 0 0 255 50))); [discriminate|reflexivity].
Defined.



(** A width of 2^31 stops the constructor before the pen has a name: no
    pen is added and none is registered. *)
Example overflowing_width :
  let w := NamedColorManager.initial_world black_heap in
  exists w', NamedPen.__init__ "b" 2147483648 None w = Raised OverflowError w' /\
             pens w' = pens w /\ registered_objects w' = registered_objects w.
Proof. cbv zeta. eexists. split_and!; vm_compute; reflexivity. Qed.

(** A pen whose opacity was set to one the binding refuses keeps that
    opacity in its identifier, stays registered, and makes the next
    palette change fail with [OverflowError]. *)
Example overflowing_opacity_stays :
  let w := store_of (NamedPen.setAlpha 0%nat (Some 2147483648) one_pen) in
  NamedPen.setAlpha 0%nat (Some 2147483648) one_pen = Raised OverflowError w /\
  pen_alpha w 0%nat = Some (Some 2147483648) /\
  0%nat ∈ registered_objects w /\
  exists w', redefinePalette (ArgDict (Colors one_pen)) w = Raised OverflowError w'.
Proof.
  cbv zeta. split_and!; [vm_compute; reflexivity..| |].
  - apply elem_of_elements, list_elem_of_In. vm_compute. by left.
  - eexists. vm_compute. reflexivity.
Qed.

(** * Further properties of the target item *)

Section TargetItemMore.

Context {QPainterPath QTransform : Type}.
Variable QTransform_new : QTransform.
Variable translate : QTransform -> float -> float -> QTransform.
Variable rotate : QTransform -> float -> QTransform.
Variable map_point : QTransform -> float * float -> float * float.
Variable map_path : QTransform -> QPainterPath -> QPainterPath.
Variable atan2 : float -> float -> float.
Variable pi : float.
Variable invertQTransform : QTransform -> exn + QTransform.
Variable Point : pyval -> exn + float * float.
Variable py_eq : pyval -> pyval -> bool.
Variable path_eq : QPainterPath -> QPainterPath -> bool.

#[local] Abbreviation item := (TargetItem.item QPainterPath QTransform).
#[local] Abbreviation setPos := (TargetItem.setPos QPainterPath QTransform Point py_eq).
#[local] Abbreviation setPath := (TargetItem.setPath QPainterPath QTransform path_eq).
#[local] Abbreviation position := (TargetItem.position QPainterPath QTransform).
#[local] Abbreviation generateShape :=
  (TargetItem.generateShape QPainterPath QTransform QTransform_new translate rotate
     map_point map_path atan2 pi invertQTransform).
#[local] Abbreviation shape :=
  (TargetItem.shape QPainterPath QTransform QTransform_new translate rotate
     map_point map_path atan2 pi invertQTransform).
#[local] Abbreviation set_pos := (TargetItem.set_pos QPainterPath QTransform).
#[local] Abbreviation set_shape := (TargetItem.set_shape QPainterPath QTransform).
#[local] Abbreviation set_path := (TargetItem.set_path QPainterPath QTransform).

(** X15.  The accepted forms of a position are interchangeable: a list is
    taken as the tuple of its items, a [QPointF] or [QPoint] as the pair of
    its coordinates. *)
Theorem setPos_normalises_its_argument
    (it : item) (items : list pyval) (x y : float) (xi yi : Z) :
  setPos (VList items) it = setPos (VTuple items) it /\
  setPos (VQPointF x y) it = setPos (VTuple [VFloat x; VFloat y]) it /\
  setPos (VQPoint xi yi) it = setPos (VTuple [VInt xi; VInt yi]) it.
Proof. split_and!; reflexivity. Qed.

(** X16.  Setting the position the item already has does nothing: nothing
    is stored, the graphics item is not moved, no signal is emitted. *)
Theorem setPos_same_position_is_silent (it : item) (items : list pyval) :
  py_eq (TargetItem._pos _ _ it) (VTuple items) = true ->
  setPos (VTuple items) it = Returned tt it.
Proof.
  intros Heq. unfold TargetItem.setPos. run. by rewrite Heq.
Qed.

(** X17.  Setting a different position that [Point] accepts stores the
    tuple, moves the graphics item there and emits [sigPositionChanged]
    once; [position()] then returns the tuple.  The path and the cached
    shape are kept. *)
Theorem setPos_moves_and_emits_once (it : item) (items : list pyval) (p : float * float) :
  py_eq (TargetItem._pos _ _ it) (VTuple items) = false ->
  Point (VTuple items) = inr p ->
  exists it',
    setPos (VTuple items) it = Returned tt it' /\
    position it' = Returned (VTuple items) it' /\
    TargetItem.base_pos _ _ it' = p /\
    TargetItem.emitted _ _ it' = TargetItem.emitted _ _ it ++ [TargetItem.sigPositionChanged] /\
    TargetItem._shape _ _ it' = TargetItem._shape _ _ it /\
    TargetItem._path _ _ it' = TargetItem._path _ _ it.
Proof.
  intros Hne Hp. eexists. unfold TargetItem.setPos. run. rewrite Hne. simpl.
  rewrite Hp. simpl. split_and!; reflexivity.
Qed.

(** X18.  [setPos] is not atomic: if [Point] rejects the new tuple (one of
    fewer than two items, or of items that are no numbers), the exception
    leaves the item with the new [_pos] already stored, while the graphics
    item has not moved and nothing was emitted. *)
Theorem setPos_keeps_a_position_Point_rejects (it : item) (items : list pyval) (e : exn) :
  py_eq (TargetItem._pos _ _ it) (VTuple items) = false ->
  Point (VTuple items) = inl e ->
  setPos (VTuple items) it = Raised e (set_pos (VTuple items) it) /\
  position (set_pos (VTuple items) it) = Returned (VTuple items) (set_pos (VTuple items) it) /\
  TargetItem.base_pos _ _ (set_pos (VTuple items) it) = TargetItem.base_pos _ _ it /\
  TargetItem.emitted _ _ (set_pos (VTuple items) it) = TargetItem.emitted _ _ it.
Proof.
  intros Hne Hp. unfold TargetItem.setPos. run. rewrite Hne. simpl.
  rewrite Hp. split_and!; reflexivity.
Qed.

(** X19.  Without a device transform (the item is in no view) [shape()]
    returns the untransformed path and caches it: asking again returns it
    from the cache and changes nothing. *)
Theorem shape_without_device_transform (it : item) :
  TargetItem.deviceTransform _ _ it = None ->
  TargetItem._shape _ _ it = None ->
  let it' := set_shape (Some (TargetItem._path _ _ it)) it in
  shape it = Returned (TargetItem._path _ _ it) it' /\
  shape it' = Returned (TargetItem._path _ _ it) it'.
Proof.
  intros Hdt Hs. unfold TargetItem.shape, TargetItem.generateShape. run.
  rewrite Hs, Hdt. simpl. split; reflexivity.
Qed.

(** X20.  When the device transform cannot be inverted, [generateShape]
    and [shape()] raise what [invertQTransform] raises, and nothing is
    cached: the item is as it was. *)
Theorem shape_with_singular_transform (it : item) (dt : QTransform) (e : exn) :
  TargetItem.deviceTransform _ _ it = Some dt ->
  invertQTransform dt = inl e ->
  TargetItem._shape _ _ it = None ->
  generateShape it = Raised e it /\ shape it = Raised e it.
Proof.
  intros Hdt Hinv Hs. unfold TargetItem.shape, TargetItem.generateShape. run.
  rewrite Hs, Hdt, Hinv. simpl. split; reflexivity.
Qed.

(** X21.  With an invertible device transform, [shape()] computes the
    shape once: the first call caches what [generateShape] returns, and
    later calls return the cached path even if the device transform has
    changed in between, until [viewTransformChanged] or a new path drops
    the cache. *)
Theorem shape_is_cached_until_invalidated
    (it : item) (dt dt' : QTransform) (dti : QTransform) :
  TargetItem.deviceTransform _ _ it = Some dt ->
  invertQTransform dt = inr dti ->
  TargetItem._shape _ _ it = None ->
  exists s,
    generateShape it = Returned (Some s) it /\
    shape it = Returned s (set_shape (Some s) it) /\
    let moved := TargetItem.mkItem _ _ (TargetItem._pos _ _ it) (TargetItem._path _ _ it)
                   (Some s) (TargetItem.base_pos _ _ it) (Some dt')
                   (TargetItem.emitted _ _ it) (TargetItem.updates _ _ it) in
    shape moved = Returned s moved.
Proof.
  intros Hdt Hinv Hs. eexists. unfold TargetItem.shape, TargetItem.generateShape. run.
  rewrite Hs, Hdt, Hinv. simpl. split_and!; reflexivity.
Qed.

(** X22.  [setPath] with the path the item has does nothing; with another
    path it stores the path and drops the cached shape. *)
Theorem setPath_invalidates_only_on_change (it : item) (same other : QPainterPath) :
  path_eq same (TargetItem._path _ _ it) = true ->
  path_eq other (TargetItem._path _ _ it) = false ->
  setPath same it = Returned tt it /\
  setPath other it = Returned tt (set_shape None (set_path other it)) /\
  TargetItem._shape _ _ (set_shape None (set_path other it)) = None /\
  TargetItem._path _ _ (set_shape None (set_path other it)) = other.
Proof.
  intros Hsame Hother. unfold TargetItem.setPath. run.
  rewrite Hsame, Hother. split_and!; reflexivity.
Qed.

End TargetItemMore.

Lemma setPos_same_position_is_silent_witness :
  TargetItem.setPos nat bool Point_of_pair sample_py_eq (VTuple [VInt 0; VInt 0])
    (sample_item None)
  = Returned tt (sample_item None).
Proof.
  apply (setPos_same_position_is_silent Point_of_pair sample_py_eq (sample_item None)
           [VInt 0; VInt 0]).
  reflexivity.
Defined.

Lemma setPos_moves_and_emits_once_witness :
  exists it',
    TargetItem.setPos nat bool Point_of_pair sample_py_eq (VTuple [VFloat 1; VFloat 2])
      (sample_item None) = Returned tt it' /\
    TargetItem.position nat bool it' = Returned (VTuple [VFloat 1; VFloat 2]) it' /\
    TargetItem.base_pos _ _ it' = (1, 2)%float /\
    TargetItem.emitted _ _ it'
    = TargetItem.emitted _ _ (sample_item None) ++ [TargetItem.sigPositionChanged] /\
    TargetItem._shape _ _ it' = TargetItem._shape _ _ (sample_item None) /\
    TargetItem._path _ _ it' = TargetItem._path _ _ (sample_item None).
Proof.
  apply (setPos_moves_and_emits_once Point_of_pair sample_py_eq (sample_item None)
           [VFloat 1; VFloat 2] (1, 2)%float); reflexivity.
Defined.

Lemma setPos_keeps_a_position_Point_rejects_witness :
  let bad := [VInt 1] in
  let it' := TargetItem.set_pos nat bool (VTuple bad) (sample_item None) in
  TargetItem.setPos nat bool Point_of_pair sample_py_eq (VTuple bad) (sample_item None)
  = Raised (IndexError "tuple index out of range") it' /\
  TargetItem.position nat bool it' = Returned (VTuple bad) it' /\
  TargetItem.base_pos _ _ it' = TargetItem.base_pos _ _ (sample_item None) /\
  TargetItem.emitted _ _ it' = TargetItem.emitted _ _ (sample_item None).
Proof.
  apply (setPos_keeps_a_position_Point_rejects Point_of_pair sample_py_eq (sample_item None)
           [VInt 1] (IndexError "tuple index out of range")); reflexivity.
Defined.

Lemma shape_without_device_transform_witness :
  let it' := TargetItem.set_shape nat bool (Some 7%nat) (sample_item None) in
  TargetItem.shape nat bool true (fun t _ _ => t) (fun t _ => t) (fun _ p => p)
    (fun _ p => p) (fun _ _ => 0%float) 3.141592653589793%float sample_invert
    (sample_item None) = Returned 7%nat it' /\
  TargetItem.shape nat bool true (fun t _ _ => t) (fun t _ => t) (fun _ p => p)
    (fun _ p => p) (fun _ _ => 0%float) 3.141592653589793%float sample_invert
    it' = Returned 7%nat it'.
Proof.
  apply (shape_without_device_transform true (fun t _ _ => t) (fun t _ => t) (fun _ p => p)
           (fun _ p => p) (fun _ _ => 0%float) 3.141592653589793%float sample_invert
           (sample_item None)); reflexivity.
Defined.

Lemma shape_with_singular_transform_witness :
  TargetItem.generateShape nat bool true (fun t _ _ => t) (fun t _ => t) (fun _ p => p)
    (fun _ p => p) (fun _ _ => 0%float) 3.141592653589793%float sample_invert
    (sample_item (Some false))
  = Raised (PyException "Transform is not invertible.") (sample_item (Some false)) /\
  TargetItem.shape nat bool true (fun t _ _ => t) (fun t _ => t) (fun _ p => p)
    (fun _ p => p) (fun _ _ => 0%float) 3.141592653589793%float sample_invert
    (sample_item (Some false))
  = Raised (PyException "Transform is not invertible.") (sample_item (Some false)).
Proof.
  apply (shape_with_singular_transform true (fun t _ _ => t) (fun t _ => t) (fun _ p => p)
           (fun _ p => p) (fun _ _ => 0%float) 3.141592653589793%float sample_invert
           (sample_item (Some false)) false (PyException "Transform is not invertible."));
    reflexivity.
Defined.

Lemma shape_is_cached_until_invalidated_witness :
  exists s,
    TargetItem.generateShape nat bool true (fun t _ _ => t) (fun t _ => t) (fun _ p => p)
      (fun _ p => S p) (fun _ _ => 0%float) 3.141592653589793%float sample_invert
      (sample_item (Some true)) = Returned (Some s) (sample_item (Some true)) /\
    TargetItem.shape nat bool true (fun t _ _ => t) (fun t _ => t) (fun _ p => p)
      (fun _ p => S p) (fun _ _ => 0%float) 3.141592653589793%float sample_invert
      (sample_item (Some true))
    = Returned s (TargetItem.set_shape nat bool (Some s) (sample_item (Some true))) /\
    let moved := TargetItem.mkItem nat bool (VTuple [VInt 0; VInt 0]) 7%nat (Some s)
                   (0, 0)%float (Some false) [] 0 in
    TargetItem.shape nat bool true (fun t _ _ => t) (fun t _ => t) (fun _ p => p)
      (fun _ p => S p) (fun _ _ => 0%float) 3.141592653589793%float sample_invert
      moved = Returned s moved.
Proof.
  apply (shape_is_cached_until_invalidated true (fun t _ _ => t) (fun t _ => t)
           (fun _ p => p) (fun _ p => S p) (fun _ _ => 0%float) 3.141592653589793%float
           sample_invert (sample_item (Some true)) true false true); reflexivity.
Defined.

Lemma setPath_invalidates_only_on_change_witness :
  let it := TargetItem.set_shape nat bool (Some 7%nat) (sample_item None) in
  TargetItem.setPath nat bool Nat.eqb 7%nat it = Returned tt it /\
  TargetItem.setPath nat bool Nat.eqb 9%nat it
  = Returned tt (TargetItem.set_shape nat bool None (TargetItem.set_path nat bool 9%nat it)) /\
  TargetItem._shape _ _ (TargetItem.set_shape nat bool None (TargetItem.set_path nat bool 9%nat it))
  = None /\
  TargetItem._path _ _ (TargetItem.set_shape nat bool None (TargetItem.set_path nat bool 9%nat it))
  = 9%nat.
Proof.
  apply (setPath_invalidates_only_on_change Nat.eqb
           (TargetItem.set_shape nat bool (Some 7%nat) (sample_item None)) 7%nat 9%nat);
    reflexivity.
Defined.

(** * Pens, brushes and hovering of the target item *)

Section LookFacts.

Context {Pen Brush : Type}.
Variable mkPen : pyval -> Pen.
Variable mkBrush : pyval -> Brush.

#[local] Abbreviation look := (TargetItemLook.look Pen Brush).
#[local] Abbreviation setPen := (TargetItemLook.setPen Pen Brush mkPen).
#[local] Abbreviation setHoverPen := (TargetItemLook.setHoverPen Pen Brush mkPen).
#[local] Abbreviation setBrush := (TargetItemLook.setBrush Pen Brush mkBrush).
#[local] Abbreviation setHoverBrush := (TargetItemLook.setHoverBrush Pen Brush mkBrush).
#[local] Abbreviation setMouseHover := (TargetItemLook.setMouseHover Pen Brush).
#[local] Abbreviation hoverEvent := (TargetItemLook.hoverEvent Pen Brush).

Ltac look_run :=
  unfold TargetItemLook.__init__, TargetItemLook.hoverEvent, TargetItemLook.setMouseHover,
    TargetItemLook.setPen, TargetItemLook.setHoverPen,
    TargetItemLook.setBrush, TargetItemLook.setHoverBrush, look_consistent in *;
  unfold mbind, Py_bind, mret, Py_ret, bind, ret, get, modify in *; cbn in *.

(** X23.  Whatever the object held, the pen-and-brush part of
    [TargetItem.__init__] leaves the item not hovering, with the four pens
    and brushes made from the arguments ([None] standing for the default
    colours), the normal pen and brush in use, and two repaints asked
    for. *)
Theorem look_init_uses_the_normal_pen (pen hoverPen brush hoverBrush : pyval) (s : look) :
  exists s',
    TargetItemLook.__init__ Pen Brush mkPen mkBrush pen hoverPen brush hoverBrush s
    = Returned tt s' /\
    look_consistent s' /\
    TargetItemLook.mouseHovering _ _ s' = false /\
    TargetItemLook.currentPen _ _ s'
    = mkPen (TargetItemLook.or_default pen (VTuple [VInt 255; VInt 255; VInt 0])) /\
    TargetItemLook.currentBrush _ _ s'
    = mkBrush (TargetItemLook.or_default brush (VTuple [VInt 0; VInt 0; VInt 255; VInt 50])) /\
    TargetItemLook.hoverPen _ _ s'
    = mkPen (TargetItemLook.or_default hoverPen (VTuple [VInt 255; VInt 0; VInt 255])) /\
    TargetItemLook.hoverBrush _ _ s'
    = mkBrush (TargetItemLook.or_default hoverBrush
                 (VTuple [VInt 0; VInt 255; VInt 255; VInt 100])) /\
    TargetItemLook.repaints _ _ s' = S (S (TargetItemLook.repaints _ _ s)).
Proof.
  eexists. look_run. split_and!; reflexivity.
Qed.

(** X24.  The setters and the hover handlers keep the pen and brush in use
    in step with the hover state: if they are before, they are after each
    of [setPen], [setHoverPen], [setBrush], [setHoverBrush],
    [setMouseHover] and [hoverEvent].  After [hoverEvent] the item hovers
    exactly when it is movable, the event is no exit and it accepts a left
    drag; the look is repainted only if the hover state has changed. *)
Theorem look_follows_the_hover_state
    (s : look) (args : pyval) (hover movable : bool) (ev : TargetItemLook.HoverEvent) :
  look_consistent s ->
  (exists s', setPen args s = Returned tt s' /\ look_consistent s') /\
  (exists s', setHoverPen args s = Returned tt s' /\ look_consistent s') /\
  (exists s', setBrush args s = Returned tt s' /\ look_consistent s') /\
  (exists s', setHoverBrush args s = Returned tt s' /\ look_consistent s') /\
  (exists s', setMouseHover hover s = Returned tt s' /\ look_consistent s' /\
              TargetItemLook.mouseHovering _ _ s' = hover) /\
  (exists s', hoverEvent movable ev s = Returned tt s' /\ look_consistent s' /\
              TargetItemLook.mouseHovering _ _ s'
              = movable && negb (TargetItemLook.isExit ev) && TargetItemLook.acceptDrags ev /\
              TargetItemLook.repaints _ _ s'
              = if Bool.eqb (TargetItemLook.mouseHovering _ _ s)
                     (TargetItemLook.mouseHovering _ _ s')
                then TargetItemLook.repaints _ _ s
                else S (TargetItemLook.repaints _ _ s)).
Proof.
  intros [HP HB]. destruct s as [h p hp b hb cp cb n]. cbn in HP, HB. subst cp cb.
  split_and!.
  - destruct h; eexists; look_run; split_and!; reflexivity.
  - destruct h; eexists; look_run; split_and!; reflexivity.
  - destruct h; eexists; look_run; split_and!; reflexivity.
  - destruct h; eexists; look_run; split_and!; reflexivity.
  - destruct h, hover; eexists; look_run; split_and!; reflexivity.
  - destruct ev as [ex ad].
    destruct h, movable, ex, ad; eexists; look_run; split_and!; reflexivity.
Qed.

End LookFacts.

Lemma look_follows_the_hover_state_witness :
  let s := sample_look in
  let ev := TargetItemLook.mkHoverEvent true true in
  (exists s', TargetItemLook.setPen _ _ id (VStr "r") s = Returned tt s' /\ look_consistent s') /\
  (exists s', TargetItemLook.setHoverPen _ _ id (VStr "r") s = Returned tt s' /\
              look_consistent s') /\
  (exists s', TargetItemLook.setBrush _ _ id (VStr "r") s = Returned tt s' /\
              look_consistent s') /\
  (exists s', TargetItemLook.setHoverBrush _ _ id (VStr "r") s = Returned tt s' /\
              look_consistent s') /\
  (exists s', TargetItemLook.setMouseHover _ _ false s = Returned tt s' /\ look_consistent s' /\
              TargetItemLook.mouseHovering _ _ s' = false) /\
  (exists s', TargetItemLook.hoverEvent _ _ true ev s = Returned tt s' /\ look_consistent s' /\
              TargetItemLook.mouseHovering _ _ s'
              = true && negb (TargetItemLook.isExit ev) && TargetItemLook.acceptDrags ev /\
              TargetItemLook.repaints _ _ s'
              = if Bool.eqb (TargetItemLook.mouseHovering _ _ s)
                     (TargetItemLook.mouseHovering _ _ s')
                then TargetItemLook.repaints _ _ s
                else S (TargetItemLook.repaints _ _ s)).
Proof.
  apply (look_follows_the_hover_state id id sample_look (VStr "r") false true
           (TargetItemLook.mkHoverEvent true true)).
  split; reflexivity.
Defined.

(** * Dragging and clicking the target *)

Section MouseFacts.

Context {QPainterPath QTransform : Type}.
Variable Point : pyval -> exn + float * float.
Variable py_eq : pyval -> pyval -> bool.
Variable mapToParent :
  TargetItem.item QPainterPath QTransform -> float * float -> float * float.

#[local] Abbreviation dragged := (TargetItemMouse.dragged QPainterPath QTransform).
#[local] Abbreviation mkDragged := (TargetItemMouse.mkDragged QPainterPath QTransform).
#[local] Abbreviation mouseDragEvent :=
  (TargetItemMouse.mouseDragEvent QPainterPath QTransform Point py_eq mapToParent).
#[local] Abbreviation mouseClickEvent :=
  (TargetItemMouse.mouseClickEvent QPainterPath QTransform).
#[local] Abbreviation setPos := (TargetItem.setPos QPainterPath QTransform Point py_eq).
#[local] Abbreviation target := (TargetItemMouse.target QPainterPath QTransform).
#[local] Abbreviation moving := (TargetItemMouse.moving QPainterPath QTransform).
#[local] Abbreviation cursorOffset := (TargetItemMouse.cursorOffset QPainterPath QTransform).

Ltac mouse_run :=
  unfold TargetItemMouse.mouseDragEvent, TargetItemMouse.mouseClickEvent,
    TargetItemMouse.on_target;
  unfold mbind, Py_bind, mret, Py_ret, bind, ret, raise, get, modify;
  cbn -[TargetItem.setPos].

(** X25.  Mouse events that leave the target alone.  A drag event is not
    accepted, and changes nothing, when the item is not movable or the
    button is not the left one; a left-button drag event that neither
    starts a drag nor belongs to one is accepted and changes nothing.  A
    click is accepted only when it is a right click during a drag. *)
Theorem mouse_events_without_effect
    (movable : bool) (ev : TargetItemMouse.MouseDragEvent)
    (button : TargetItemMouse.MouseButton) (s : dragged) :
  movable = false \/ TargetItemMouse.drag_button ev <> TargetItemMouse.LeftButton \/
  (TargetItemMouse.isStart ev = false /\ moving s = false) ->
  moving s = false \/ button <> TargetItemMouse.RightButton ->
  mouseDragEvent movable ev s
  = Returned (movable && left_button (TargetItemMouse.drag_button ev)) s /\
  mouseClickEvent button s = Returned false s.
Proof.
  intros Hd Hc. split.
  - destruct ev as [b st fi dp p], s as [it mv off]; cbn in *. mouse_run.
    destruct movable; [|reflexivity].
    destruct b; try reflexivity.
    destruct Hd as [?|[?|[-> ->]]]; [discriminate|done|]. reflexivity.
  - destruct s as [it mv off]; cbn in *. mouse_run.
    destruct mv; [|reflexivity].
    destruct button; try reflexivity.
    destruct Hc; [discriminate|done].
Qed.

(** X26.  A left-button drag event on a movable target that starts a drag,
    or continues one, moves the target by [setPos] to the cursor position
    plus the offset between target and cursor taken when the drag started.
    If [setPos] returns, the event is accepted, the target is moving unless
    the event finishes the drag, and then [sigPositionChangeFinished] is
    emitted after whatever [setPos] emitted.  If [setPos] raises, the
    target is left in the moving state. *)
Theorem drag_moves_the_target
    (ev : TargetItemMouse.MouseDragEvent) (s : dragged) (off : float * float) :
  TargetItemMouse.drag_button ev = TargetItemMouse.LeftButton ->
  (if TargetItemMouse.isStart ev
   then off = (let p := TargetItem.base_pos _ _ (target s) in
               let q := mapToParent (target s) (TargetItemMouse.buttonDownPos ev) in
               (fst p - fst q, snd p - snd q)%float)
   else moving s = true /\ cursorOffset s = Some off) ->
  let q := mapToParent (target s) (TargetItemMouse.pos ev) in
  mouseDragEvent true ev s
  = match setPos (VQPointF (fst off + fst q) (snd off + snd q)) (target s) with
    | Returned _ it' =>
        Returned true
          (mkDragged
             (if TargetItemMouse.isFinish ev
              then TargetItem.emit _ _ TargetItem.sigPositionChangeFinished it'
              else it')
             (negb (TargetItemMouse.isFinish ev)) (Some off))
    | Raised e it' => Raised e (mkDragged it' true (Some off))
    end.
Proof.
  intros Hb Hoff q. subst q.
  destruct ev as [b st fi dp p], s as [it mv co]; cbn -[TargetItem.setPos] in *. subst b.
  mouse_run. destruct st; cbn -[TargetItem.setPos].
  - subst off. cbn -[TargetItem.setPos].
    match goal with
    | |- context [TargetItem.setPos ?a ?b ?c ?d ?v ?i] =>
        destruct (TargetItem.setPos a b c d v i) as [[] it'|e it']; [|reflexivity]
    end.
    destruct fi; reflexivity.
  - destruct Hoff as [-> ->]. cbn -[TargetItem.setPos].
    match goal with
    | |- context [TargetItem.setPos ?a ?b ?c ?d ?v ?i] =>
        destruct (TargetItem.setPos a b c d v i) as [[] it'|e it']; [|reflexivity]
    end.
    destruct fi; reflexivity.
Qed.

(** X27.  A right click during a drag stops the drag without putting the
    target back: the position stays where the drag left it, and
    [sigPositionChanged] is emitted all the same, followed by
    [sigPositionChangeFinished]. *)
Theorem right_click_stops_a_drag_in_place (s : dragged) :
  moving s = true ->
  exists s',
    mouseClickEvent TargetItemMouse.RightButton s = Returned true s' /\
    moving s' = false /\
    cursorOffset s' = cursorOffset s /\
    TargetItem._pos _ _ (target s') = TargetItem._pos _ _ (target s) /\
    TargetItem.base_pos _ _ (target s') = TargetItem.base_pos _ _ (target s) /\
    TargetItem.emitted _ _ (target s')
    = TargetItem.emitted _ _ (target s)
      ++ [TargetItem.sigPositionChanged; TargetItem.sigPositionChangeFinished].
Proof.
  intros Hm. destruct s as [it mv co]; cbn in *. subst mv.
  eexists. mouse_run. split_and!; try reflexivity.
  symmetry. apply (app_assoc _ [_] [_]).
Qed.

End MouseFacts.

Lemma mouse_events_without_effect_witness :
  let ev := TargetItemMouse.mkDrag TargetItemMouse.RightButton true false (0, 0)%float
              (1, 1)%float in
  TargetItemMouse.mouseDragEvent nat bool Point_of_pair sample_py_eq same_coordinates
    true ev resting
  = Returned (true && left_button (TargetItemMouse.drag_button ev)) resting /\
  TargetItemMouse.mouseClickEvent nat bool TargetItemMouse.RightButton resting
  = Returned false resting.
Proof.
  apply (mouse_events_without_effect Point_of_pair sample_py_eq same_coordinates true
           (TargetItemMouse.mkDrag TargetItemMouse.RightButton true false (0, 0)%float
              (1, 1)%float)
           TargetItemMouse.RightButton resting).
  - right. left. discriminate.
  - left. reflexivity.
Defined.

Lemma drag_moves_the_target_witness :
  let ev := TargetItemMouse.mkDrag TargetItemMouse.LeftButton false true (0, 0)%float
              (1, 2)%float in
  let q := same_coordinates (TargetItemMouse.target _ _ in_a_drag) (TargetItemMouse.pos ev) in
  TargetItemMouse.mouseDragEvent nat bool Point_of_pair sample_py_eq same_coordinates
    true ev in_a_drag
  = match TargetItem.setPos nat bool Point_of_pair sample_py_eq
            (VQPointF (fst (0, 0)%float + fst q) (snd (0, 0)%float + snd q))
            (TargetItemMouse.target _ _ in_a_drag) with
    | Returned _ it' =>
        Returned true
          (TargetItemMouse.mkDragged nat bool
             (if TargetItemMouse.isFinish ev
              then TargetItem.emit _ _ TargetItem.sigPositionChangeFinished it'
              else it')
             (negb (TargetItemMouse.isFinish ev)) (Some (0, 0)%float))
    | Raised e it' => Raised e (TargetItemMouse.mkDragged nat bool it' true (Some (0, 0)%float))
    end.
Proof.
  apply (drag_moves_the_target Point_of_pair sample_py_eq same_coordinates
           (TargetItemMouse.mkDrag TargetItemMouse.LeftButton false true (0, 0)%float
              (1, 2)%float)
           in_a_drag (0, 0)%float).
  - reflexivity.
  - split; reflexivity.
Defined.

Lemma right_click_stops_a_drag_in_place_witness :
  exists s',
    TargetItemMouse.mouseClickEvent nat bool TargetItemMouse.RightButton in_a_drag
    = Returned true s' /\
    TargetItemMouse.moving _ _ s' = false /\
    TargetItemMouse.cursorOffset _ _ s' = TargetItemMouse.cursorOffset _ _ in_a_drag /\
    TargetItem._pos _ _ (TargetItemMouse.target _ _ s')
    = TargetItem._pos _ _ (TargetItemMouse.target _ _ in_a_drag) /\
    TargetItem.base_pos _ _ (TargetItemMouse.target _ _ s')
    = TargetItem.base_pos _ _ (TargetItemMouse.target _ _ in_a_drag) /\
    TargetItem.emitted _ _ (TargetItemMouse.target _ _ s')
    = TargetItem.emitted _ _ (TargetItemMouse.target _ _ in_a_drag)
      ++ [TargetItem.sigPositionChanged; TargetItem.sigPositionChangeFinished].
Proof.
  apply (right_click_stops_a_drag_in_place in_a_drag). reflexivity.
Defined.

(** * The label of the target *)

Section LabelFacts.

Variable TextItem__init__ : pyval -> pyval -> Py TargetLabel.label unit.
Variable QGraphicsItem_setPos : list pyval -> Py TargetLabel.label unit.
Variable scene_removeItem : TargetLabel.label -> option exn.
Variable setText : pyval -> TargetLabel.label -> TargetLabel.label.

#[local] Abbreviation setLabel :=
  (TargetItemLabel.setLabel TextItem__init__ QGraphicsItem_setPos scene_removeItem setText).
#[local] Abbreviation new_TargetLabel :=
  (TargetItemLabel.new_TargetLabel TextItem__init__ QGraphicsItem_setPos).

(** X28.  On a target without a label, [setLabel] does not look at its
    [label] argument: whatever is passed, [None] included, a label is
    created from [labelOpts] alone (its text is [labelOpts]' [text] or the
    default format), and its value is then refreshed.  A missing
    [labelOpts] is the empty dictionary.  If [TargetLabel] raises, the
    target stays without a label. *)
Theorem setLabel_on_a_bare_target_ignores_the_text
    (self : nat) (label : pyval) (labelOpts : option (gmap string pyval)) :
  setLabel self label labelOpts None = setLabel self VNone labelOpts None /\
  setLabel self label None None = setLabel self label (Some ∅) None /\
  setLabel self label labelOpts None
  = match new_TargetLabel self (default ∅ labelOpts) with
    | Returned _ l => Returned tt (Some (TargetItemLabel.valueChanged l))
    | Raised e _ => Raised e None
    end.
Proof.
  unfold TargetItemLabel.setLabel.
  split_and!; destruct label; try reflexivity;
    destruct (TargetItemLabel.new_TargetLabel _ _ _ _); reflexivity.
Qed.

(** X29.  [setLabel()] without a text toggles the label: on a target with
    a label it removes the label from its scene, whatever [labelOpts] is,
    and calling it again creates a new label with the default options. *)
Theorem setLabel_None_twice_brings_a_label_back
    (self : nat) (l l' : TargetLabel.label) (labelOpts : option (gmap string pyval)) :
  scene_removeItem l = None ->
  new_TargetLabel self ∅ = Returned tt l' ->
  setLabel self VNone labelOpts (Some l) = Returned tt None /\
  (setLabel self VNone labelOpts;; setLabel self VNone None) (Some l)
  = Returned tt (Some (TargetItemLabel.valueChanged l')).
Proof.
  intros Hrm Hnew.
  assert (H1 : setLabel self VNone labelOpts (Some l) = Returned tt None).
  { unfold TargetItemLabel.setLabel. by rewrite Hrm. }
  split; [exact H1|].
  unfold mbind, Py_bind, bind. rewrite H1.
  unfold TargetItemLabel.setLabel. cbn [default]. by rewrite Hnew.
Qed.

End LabelFacts.

Lemma setLabel_None_twice_brings_a_label_back_witness :
  TargetItemLabel.setLabel no_base_init no_setPos removable text_as_format 0%nat VNone
    (Some ∅) (Some fresh_label) = Returned tt None /\
  (TargetItemLabel.setLabel no_base_init no_setPos removable text_as_format 0%nat VNone
     (Some ∅);;
   TargetItemLabel.setLabel no_base_init no_setPos removable text_as_format 0%nat VNone None)
    (Some fresh_label)
  = Returned tt
      (Some (TargetItemLabel.valueChanged
               (TargetLabel.mkLabel (Some 0%nat) (Some 0%nat)
                  (VStr "x = {:0.3f}, y = {:0.3f}") None true 1))).
Proof.
  apply (setLabel_None_twice_brings_a_label_back no_base_init no_setPos removable
           text_as_format 0%nat fresh_label
           (TargetLabel.mkLabel (Some 0%nat) (Some 0%nat)
              (VStr "x = {:0.3f}, y = {:0.3f}") None true 1)
           (Some ∅)).
  - reflexivity.
  - vm_compute. reflexivity.
Defined.

(** * Painting the path button *)

Lemma paintEvent_degenerate_path_witness :
  PathButton.paintEvent unit flat_rect unit unit plain_button tt
  = PathButton.ZeroDivisionError.
Proof.
  apply (paintEvent_degenerate_path flat_rect plain_button tt).
  right. reflexivity.
Defined.
